(** * Package checker agent: a shallow embedding of [services.py] and [main.py]

    The service receives a JSON-RPC request carrying a free-text query,
    extracts a package name and an optional ecosystem hint, asks PyPI
    and/or npm for the package and wraps a formatted answer in a task
    result.

    Python values are embedded as follows.
    - [str] is [string]; text is taken to be ASCII (UTF-8 bytes of
      the two emoji of [format_response] are carried as they are), and the
      builtins [lower], [strip], [replace] and [in] follow their ASCII
      behaviour.
    - A value read from JSON, and every value stored in a [Dict[str, Any]],
      is a [pyval]; a dict is a [gmap string pyval].
    - Code that may raise runs in the monad [M], which threads the list of
      URLs requested so far and the number of [uuid4()] draws.
    - The network, [uuid4] and [str()] of a value that is not a string are
      parameters of the model. *)

From Stdlib Require Import ZArith String Ascii List Lia.
From Stdlib Require Import Floats.SpecFloat.
From stdpp Require Import base option gmap strings list pretty.

Local Open Scope Z_scope.

(* ================================================================= *)
(** ** Python string builtins *)

Module PyStr.

(** [c.lower()] for one ASCII character. *)
Definition lower_char (c : ascii) : ascii :=
  let n := nat_of_ascii c in
  if ((65 <=? n) && (n <=? 90))%nat then ascii_of_nat (n + 32) else c.

(** [s.lower()] *)
Fixpoint lower (s : string) : string :=
  match s with
  | EmptyString => EmptyString
  | String c s' => String (lower_char c) (lower s')
  end.

(** [c.isspace()] for one ASCII character: tab, line feed, vertical tab,
    form feed, carriage return, the four separators 28..31 and space. *)
Definition is_space (c : ascii) : bool :=
  let n := nat_of_ascii c in
  (((9 <=? n) && (n <=? 13)) || ((28 <=? n) && (n <=? 32)))%nat.

(** [s.lstrip()] *)
Fixpoint lstrip (s : string) : string :=
  match s with
  | EmptyString => EmptyString
  | String c s' => if is_space c then lstrip s' else s
  end.

(** [s.rstrip()] *)
Fixpoint rstrip (s : string) : string :=
  match s with
  | EmptyString => EmptyString
  | String c s' =>
      match rstrip s' with
      | EmptyString => if is_space c then EmptyString else String c EmptyString
      | r => String c r
      end
  end.

(** [s.strip()] *)
Definition strip (s : string) : string := rstrip (lstrip s).

(** [s.startswith(p)] *)
Fixpoint starts_with (p s : string) : bool :=
  match p, s with
  | EmptyString, _ => true
  | String _ _, EmptyString => false
  | String a p', String b s' => Ascii.eqb a b && starts_with p' s'
  end.

(** [sub in s] *)
Fixpoint contains (sub s : string) : bool :=
  match s with
  | EmptyString => starts_with sub EmptyString
  | String _ s' => starts_with sub s || contains sub s'
  end.

(** The scan of [s.replace(old, new)] for a non-empty [old]: [skip] counts
    the characters of a match that are still to be passed over. *)
Fixpoint replace_from (old new : string) (skip : nat) (s : string) : string :=
  match s with
  | EmptyString => EmptyString
  | String c s' =>
      match skip with
      | S k => replace_from old new k s'
      | O =>
          if starts_with old s
          then new +:+ replace_from old new (String.length old - 1) s'
          else String c (replace_from old new 0 s')
      end
  end.

(** [s.replace("", new)]: [new] before every character and at the end. *)
Fixpoint replace_empty (new s : string) : string :=
  match s with
  | EmptyString => new
  | String c s' => new +:+ String c (replace_empty new s')
  end.

(** [s.replace(old, new)]: the occurrences of [old] found scanning from the
    left, none overlapping an earlier one, are replaced by [new]. *)
Definition replace (s old new : string) : string :=
  match old with
  | EmptyString => replace_empty new s
  | String _ _ => replace_from old new 0 s
  end.


End PyStr.

Import PyStr.

(* ================================================================= *)
(** ** The query interpreter: [PackageChecker.parse_query] *)

Definition parse_query (query : string) : string * option string :=
  let query_lower := lower query in
  (* common prefixes removed *)
  let query_lower := replace query_lower "check " "" in
  let query_lower := replace query_lower "version of " "" in
  let query_lower := replace query_lower "latest " "" in
  let query_lower := replace query_lower "info for " "" in
  let query_lower := replace query_lower "about " "" in
  (* package type *)
  if contains "npm" query_lower || contains "javascript" query_lower
     || contains "node" query_lower
  then
    let query_lower :=
      replace (replace (replace query_lower "npm" "") "javascript" "") "node" "" in
    (strip query_lower, Some "npm")
  else if contains "pip" query_lower || contains "python" query_lower
          || contains "pypi" query_lower
  then
    let query_lower :=
      replace (replace (replace query_lower "pip" "") "python" "") "pypi" "" in
    (strip query_lower, Some "pypi")
  else (strip query_lower, None).

(** What the specification says of the interpreter, in its own words. *)






(* ================================================================= *)
(** ** Python values *)

(** A value decoded from JSON, or stored in a [Dict[str, Any]]. *)
#[warnings="-register-all"]
Inductive pyval : Type :=
| PNone
| PBool (b : bool)
| PInt (z : Z)
| PFloat (f : spec_float)
| PStr (s : string)
| PList (l : list pyval)
| PDict (d : gmap string pyval).

(** [type(v).__name__] *)
Definition type_name (v : pyval) : string :=
  match v with
  | PNone => "NoneType"
  | PBool _ => "bool"
  | PInt _ => "int"
  | PFloat _ => "float"
  | PStr _ => "str"
  | PList _ => "list"
  | PDict _ => "dict"
  end.

(** [bool(v)] *)
Definition truthy (v : pyval) : bool :=
  match v with
  | PNone => false
  | PBool b => b
  | PInt z => negb (z =? 0)
  | PFloat f => match f with S754_zero _ => false | _ => true end
  | PStr s => negb (String.eqb s "")
  | PList l => match l with [] => false | _ :: _ => true end
  | PDict d => negb (bool_decide (d = ∅))
  end.

(** [isinstance(v, dict)] *)
Definition is_dict (v : pyval) : bool :=
  match v with PDict _ => true | _ => false end.


(** [v == s] for a string literal [s]. *)
Definition eq_str (v : pyval) (s : string) : bool :=
  match v with PStr t => String.eqb t s | _ => false end.

(** [d.get(key, default)] on a dict. *)
Definition dict_get (d : gmap string pyval) (key : string) (dflt : pyval) : pyval :=
  default dflt (d !! key).

(** The exceptions the code meets.  [ValueError] stands for the class and its
    subclasses ([json.JSONDecodeError], pydantic's [ValidationError]);
    [OtherError] is any other subclass of [Exception].  Each carries the text
    [str(e)], [HTTPStatusError] the status code of its response as well. *)
Inductive exn : Type :=
| ValueError (msg : string)
| AttributeError (msg : string)
| HTTPStatusError (status_code : Z) (msg : string)
| OtherError (msg : string).

(** [str(e)] *)
Definition exn_str (e : exn) : string :=
  match e with
  | ValueError m | AttributeError m | HTTPStatusError _ m | OtherError m => m
  end.

(** [isinstance(e, ValueError)] *)
Definition is_ValueError (e : exn) : bool :=
  match e with ValueError _ => true | _ => false end.

(** The text of the [AttributeError] raised by [obj.attr] when [obj], of
    class [cls], has no such attribute. *)
Definition no_attribute (cls attr : string) : string :=
  "'" +:+ cls +:+ "' object has no attribute '" +:+ attr +:+ "'".

(* ================================================================= *)
(** ** Effects *)

(** What the code has done to the outside world so far. *)
Record state : Type := State {
  requests : list string;   (* URLs requested with GET, oldest first *)
  uuids_drawn : nat;        (* number of calls of uuid4() *)
}.

Definition M (A : Type) : Type := state → (exn + A) * state.

#[global] Instance M_ret : MRet M := λ A (a : A) st, (inr a, st).
#[global] Instance M_bind : MBind M := λ A B (f : A → M B) (c : M A) st,
  match c st with
  | (inl e, st') => (inl e, st')
  | (inr a, st') => f a st'
  end.

(** [raise e] *)
Definition raise {A} (e : exn) : M A := λ st, (inl e, st).

(** [try: body except Exception as e: handler(e)] *)
Definition try_except {A} (body : M A) (handler : exn → M A) : M A := λ st,
  match body st with
  | (inl e, st') => handler e st'
  | (inr a, st') => (inr a, st')
  end.

(** [v.get(key, default)] on any value: only a dict has the method. *)
Definition py_get (v : pyval) (key : string) (dflt : pyval) : M pyval :=
  match v with
  | PDict d => mret (dict_get d key dflt)
  | _ => raise (AttributeError (no_attribute (type_name v) "get"))
  end.

(** An HTTP response as the clients read it: its status code, and what
    [response.json()] returns or the text of the [JSONDecodeError] it raises. *)
Record response : Type := Response {
  status_code : Z;
  json : string + pyval;
}.

(** [response.raise_for_status()]: httpx raises unless the status is 2xx.
    The text of the error, which no caller reads, is abridged. *)
Definition raise_for_status (r : response) : M unit :=
  if (200 <=? status_code r) && (status_code r <=? 299) then mret ()
  else raise (HTTPStatusError (status_code r) ("HTTP status " +:+ pretty (status_code r))).

(** [response.json()] *)
Definition response_json (r : response) : M pyval :=
  match json r with
  | inl descr => raise (ValueError descr)
  | inr v => mret v
  end.

(* ================================================================= *)
(** ** The registry clients and the formatter: [PackageChecker] *)

Section Checker.

(** The outcome of [client.get(url)]: the text of the exception raised when
    the exchange fails (no connection, timeout), or the response. *)
Variable http_get : string → string + response.

(** [repr(v)] of a value that is a float, a list or a dict. *)
Variable py_repr : pyval → string.

(** [str(v)], which is also how an f-string renders [v]. *)
Definition py_str (v : pyval) : string :=
  match v with
  | PStr s => s
  | PNone => "None"
  | PBool true => "True"
  | PBool false => "False"
  | PInt z => pretty z
  | PFloat _ | PList _ | PDict _ => py_repr v
  end.

(** [await client.get(url)] *)
Definition client_get (url : string) : M response := λ st,
  let st' := State (requests st ++ [url]) (uuids_drawn st) in
  match http_get url with
  | inl descr => (inl (OtherError descr), st')
  | inr r => (inr r, st')
  end.

(** The record both clients return for a failure. *)
Definition not_found (source package_name error : string) : gmap string pyval :=
  list_to_map [("found", PBool false); ("source", PStr source);
               ("name", PStr package_name); ("error", PStr error)].

(** The two [except] clauses shared by the clients. *)
Definition on_failure (source package_name : string) (e : exn)
  : M (gmap string pyval) :=
  match e with
  | HTTPStatusError code _ =>
      if code =? 404 then mret (not_found source package_name "Package not found")
      else mret (not_found source package_name ("HTTP " +:+ pretty code))
  | _ => mret (not_found source package_name (exn_str e))
  end.

Definition get_pypi_package (package_name : string) : M (gmap string pyval) :=
  let url := "https://pypi.org/pypi/" +:+ package_name +:+ "/json" in
  try_except
    (response ← client_get url;
     _ ← raise_for_status response;
     data ← response_json response;
     info ← py_get data "info" (PDict ∅);
     name ← py_get info "name" (PStr package_name);
     version ← py_get info "version" (PStr "Unknown");
     description ← py_get info "summary" (PStr "No description");
     author ← py_get info "author" (PStr "Unknown");
     license ← py_get info "license" (PStr "Unknown");
     home_page ← py_get info "home_page" PNone;
     homepage ← (if truthy home_page then mret home_page
                 else py_get info "project_url" (PStr ""));
     requires_python ← py_get info "requires_python" (PStr "Any");
     mret (list_to_map
             [("found", PBool true); ("source", PStr "PyPI"); ("name", name);
              ("version", version); ("description", description);
              ("author", author); ("license", license);
              ("homepage", homepage); ("requires_python", requires_python)]))
    (on_failure "PyPI" package_name).

Definition get_npm_package (package_name : string) : M (gmap string pyval) :=
  let url := "https://registry.npmjs.org/" +:+ package_name in
  try_except
    (response ← client_get url;
     _ ← raise_for_status response;
     data ← response_json response;
     dist_tags ← py_get data "dist-tags" (PDict ∅);
     latest_version ← py_get dist_tags "latest" (PStr "Unknown");
     name ← py_get data "name" (PStr package_name);
     description ← py_get data "description" (PStr "No description");
     author0 ← py_get data "author" PNone;
     author ← (if is_dict author0
               then a ← py_get data "author" (PDict ∅); py_get a "name" (PStr "Unknown")
               else a ← py_get data "author" (PStr "Unknown"); mret (PStr (py_str a)));
     license ← py_get data "license" (PStr "Unknown");
     homepage ← py_get data "homepage" (PStr "");
     repository0 ← py_get data "repository" PNone;
     repository ← (if is_dict repository0
                   then r ← py_get data "repository" (PDict ∅); py_get r "url" (PStr "")
                   else r ← py_get data "repository" (PStr ""); mret (PStr (py_str r)));
     mret (list_to_map
             [("found", PBool true); ("source", PStr "npm"); ("name", name);
              ("version", latest_version); ("description", description);
              ("author", author); ("license", license);
              ("homepage", homepage); ("repository", repository)]))
    (on_failure "npm" package_name).

(** Try both PyPI and npm, return the first successful result. *)
Definition get_package_smart (package_name : string) : M (gmap string pyval) :=
  (* Try PyPI first *)
  pypi_result ← get_pypi_package package_name;
  if truthy (dict_get pypi_result "found" PNone) then mret pypi_result
  else
    (* Try npm if PyPI fails *)
    npm_result ← get_npm_package package_name;
    if truthy (dict_get npm_result "found" PNone) then mret npm_result
    else
      (* Both failed *)
      mret (list_to_map
              [("found", PBool false); ("name", PStr package_name);
               ("error", PStr "Package not found in PyPI or npm")]).

(** The line feed of the f-strings. *)
Definition nl : string := String (ascii_of_nat 10) EmptyString.

Definition format_response (package_info : gmap string pyval) (package_name : string)
  : string :=
  if negb (truthy (dict_get package_info "found" PNone)) then
    let error_msg := dict_get package_info "error" (PStr "Unknown error") in
    "❌ Could not find package '" +:+ package_name +:+ "'" +:+ nl +:+ nl
      +:+ "Error: " +:+ py_str error_msg
  else
    let source := dict_get package_info "source" (PStr "Unknown") in
    let name := dict_get package_info "name" (PStr package_name) in
    let version := dict_get package_info "version" (PStr "Unknown") in
    let description := dict_get package_info "description" (PStr "No description") in
    let author := dict_get package_info "author" (PStr "Unknown") in
    let license_info := dict_get package_info "license" (PStr "Unknown") in
    let homepage := dict_get package_info "homepage" (PStr "") in
    let response :=
      "📦 " +:+ py_str name +:+ " (from " +:+ py_str source +:+ ")" +:+ nl +:+ nl in
    let response := response +:+ "Version: " +:+ py_str version +:+ nl in
    let response := response +:+ "Description: " +:+ py_str description +:+ nl in
    let response := response +:+ "Author: " +:+ py_str author +:+ nl in
    let response := response +:+ "License: " +:+ py_str license_info +:+ nl in
    let response :=
      if truthy homepage then response +:+ "Homepage: " +:+ py_str homepage +:+ nl
      else response in
    if eq_str source "PyPI" then
      let requires_python := dict_get package_info "requires_python" (PStr "Any") in
      let response := response +:+ "Requires Python: " +:+ py_str requires_python +:+ nl in
      response +:+ nl +:+ "Install: `pip install " +:+ py_str name +:+ "`"
    else if eq_str source "npm" then
      let repository := dict_get package_info "repository" (PStr "") in
      let response :=
        if truthy repository then response +:+ "Repository: " +:+ py_str repository +:+ nl
        else response in
      response +:+ nl +:+ "Install: `npm install " +:+ py_str name +:+ "`"
    else response.

End Checker.

(* ================================================================= *)
(** ** Messages and task results *)

(** Modelled from the spec: [models.py] is not part of the sources read
    here.  A part is tagged with its kind and carries a text or a structured
    payload; the fields are those [services.py] reads and writes. *)
Module MessagePart.
Record t : Type := mk {
  kind : string;
  text : option string;
  data : option pyval;
}.
End MessagePart.

(** Modelled from the spec: a message has a role, an ordered sequence of
    parts and an optional task-association id. *)
Module A2AMessage.
Record t : Type := mk {
  role : string;
  parts : list MessagePart.t;
  taskId : option string;
}.
End A2AMessage.

(** Modelled from the spec: the state reached and the agent's reply. *)
Module TaskStatus.
Record t : Type := mk {
  state : string;
  message : A2AMessage.t;
}.
End TaskStatus.

(** Modelled from the spec: a named sequence of parts. *)
Module Artifact.
Record t : Type := mk {
  name : string;
  parts : list MessagePart.t;
}.
End Artifact.

(** Modelled from the spec: the result payload of a request. *)
Module TaskResult.
Record t : Type := mk {
  id : string;
  contextId : string;
  status : TaskStatus.t;
  artifacts : list Artifact.t;
  history : list A2AMessage.t;
}.
End TaskResult.

(** Modelled from the spec: the parameters of the two methods,
    ["message/send"] with one message and an optional configuration,
    ["execute"] with a list of messages and optional identifiers. *)
Inductive Params : Type :=
| MessageParams (message : A2AMessage.t) (configuration : option pyval)
| ExecuteParams (messages : list A2AMessage.t) (contextId taskId : option string).

(** Modelled from the spec: a validated JSON-RPC request. *)
Module JSONRPCRequest.
Record t : Type := mk {
  id : pyval;
  method : string;
  params : Params;
}.
End JSONRPCRequest.

(* ================================================================= *)
(** ** The result assembler: [process_package_query] *)

Section Service.

Variable http_get : string → string + response.
Variable py_repr : pyval → string.

(** [str(uuid4())] at the n-th draw. *)
Variable uuid4 : nat → string.

(** [JSONRPCRequest( **body )]: the validation [models.py] declares; a
    failure is pydantic's [ValidationError], a [ValueError]. *)
Variable JSONRPCRequest_new : gmap string pyval → exn + JSONRPCRequest.t.

Definition str_uuid4 : M string := λ st,
  (inr (uuid4 (uuids_drawn st)), State (requests st) (S (uuids_drawn st))).

(** [x or str(uuid4())] *)
Definition or_uuid4 (x : option string) : M string :=
  match x with
  | Some s => if String.eqb s "" then str_uuid4 else mret s
  | None => str_uuid4
  end.

(** The loop over [user_message.parts]: the stripped text of the first part
    of kind ["text"], the empty string when there is none. *)
Fixpoint query_text_of (parts : list MessagePart.t) : M string :=
  match parts with
  | [] => mret EmptyString
  | part :: parts' =>
      if String.eqb (MessagePart.kind part) "text" then
        match MessagePart.text part with
        | Some t => mret (strip t)
        | None => raise (AttributeError (no_attribute "NoneType" "strip"))
        end
      else query_text_of parts'
  end.

(** Lines 224 to 230 of [process_package_query]: which client is asked. *)
Definition fetch_package_info (package_name : string) (package_type : option string)
  : M (gmap string pyval) :=
  if bool_decide (package_type = Some "pypi") then
    get_pypi_package http_get package_name
  else if bool_decide (package_type = Some "npm") then
    get_npm_package http_get py_repr package_name
  else
    (* Try both *)
    get_package_smart http_get py_repr package_name.

Definition process_package_query (messages : list A2AMessage.t)
    (context_id task_id : option string) (config : option pyval)
  : M TaskResult.t :=
  (* Generate IDs if not provided *)
  context_id ← or_uuid4 context_id;
  task_id ← or_uuid4 task_id;
  (* the last user message *)
  match last messages with
  | None => raise (ValueError "No message provided")
  | Some user_message =>
      (* the query of the message *)
      query_text ← query_text_of (A2AMessage.parts user_message);
      if String.eqb query_text "" then raise (ValueError "No text content in message")
      else
        (* the query, parsed *)
        let '(package_name, package_type) := parse_query query_text in
        (* Fetch package information *)
        package_info ← fetch_package_info package_name package_type;
        (* Build response message *)
        let response_text := format_response py_repr package_info package_name in
        let response_message :=
          A2AMessage.mk "agent" [MessagePart.mk "text" (Some response_text) None]
                        (Some task_id) in
        (* Build artifacts *)
        let artifacts :=
          [Artifact.mk "package_info"
             [MessagePart.mk "data" None (Some (PDict package_info))]] in
        (* Build history *)
        let history := messages ++ [response_message] in
        mret (TaskResult.mk task_id context_id
                (TaskStatus.mk "completed" response_message) artifacts history)
  end.

(* ================================================================= *)
(** ** The endpoint: [a2a_endpoint] of [main.py] *)

(** The [error] member of a JSON-RPC error reply. *)
Record rpc_error : Type := RpcError {
  code : Z;
  message : string;
  details : option string;   (* data.details, when the reply has a data member *)
}.

(** What the endpoint returns: a [JSONResponse] with a status code, the
    echoed id and an error, or the dump of a [JSONRPCResponse], which the
    framework sends with status 200. *)
Inductive reply : Type :=
| JSONResponse (status_code : Z) (id : pyval) (error : rpc_error)
| Result (id : pyval) (result : TaskResult.t).

(** An exception value lifted into [M]. *)
Definition lift {A} (x : exn + A) : M A :=
  match x with inl e => raise e | inr a => mret a end.

(** [body.get("id") if body else None] *)
Definition id_of (body : pyval) : M pyval :=
  if truthy body then py_get body "id" PNone else mret PNone.

(** [rpc_request.params.message] and the like. *)
Definition params_message (p : Params) : M A2AMessage.t :=
  match p with
  | MessageParams m _ => mret m
  | ExecuteParams _ _ _ => raise (AttributeError (no_attribute "ExecuteParams" "message"))
  end.
Definition params_configuration (p : Params) : M (option pyval) :=
  match p with
  | MessageParams _ c => mret c
  | ExecuteParams _ _ _ =>
      raise (AttributeError (no_attribute "ExecuteParams" "configuration"))
  end.
Definition params_messages (p : Params) : M (list A2AMessage.t) :=
  match p with
  | ExecuteParams ms _ _ => mret ms
  | MessageParams _ _ => raise (AttributeError (no_attribute "MessageParams" "messages"))
  end.
Definition params_contextId (p : Params) : M (option string) :=
  match p with
  | ExecuteParams _ c _ => mret c
  | MessageParams _ _ => raise (AttributeError (no_attribute "MessageParams" "contextId"))
  end.
Definition params_taskId (p : Params) : M (option string) :=
  match p with
  | ExecuteParams _ _ t => mret t
  | MessageParams _ _ => raise (AttributeError (no_attribute "MessageParams" "taskId"))
  end.

(** The body of the [try] once [request.json()] has returned [body]. *)
Definition a2a_try (body : pyval) : M reply :=
  (* an empty body *)
  if negb (truthy body) then
    mret (JSONResponse 400 PNone
            (RpcError (-32600) "Invalid Request: Empty request body" None))
  else
    (* Validate JSON-RPC request *)
    jsonrpc ← py_get body "jsonrpc" PNone;
    if negb (eq_str jsonrpc "2.0") then
      id ← py_get body "id" PNone;
      mret (JSONResponse 400 id
              (RpcError (-32600) "Invalid Request: jsonrpc must be '2.0'" None))
    else
      match body with
      | PDict d =>
          if negb (bool_decide (is_Some (d !! "id"))) then
            mret (JSONResponse 400 PNone
                    (RpcError (-32600) "Invalid Request: id is required" None))
          else
            (* validation with Pydantic *)
            rpc_request ← lift (JSONRPCRequest_new d);
            let method := JSONRPCRequest.method rpc_request in
            let params := JSONRPCRequest.params rpc_request in
            if String.eqb method "message/send" then
              message ← params_message params;
              config ← params_configuration params;
              result ← process_package_query [message] None None config;
              mret (Result (JSONRPCRequest.id rpc_request) result)
            else if String.eqb method "execute" then
              messages ← params_messages params;
              context_id ← params_contextId params;
              task_id ← params_taskId params;
              result ← process_package_query messages context_id task_id None;
              mret (Result (JSONRPCRequest.id rpc_request) result)
            else
              mret (JSONResponse 400 (JSONRPCRequest.id rpc_request)
                      (RpcError (-32601) ("Method not found: " +:+ method) None))
      | _ =>
          (* not reached: [body.get] has raised on a value that is no dict *)
          raise (AttributeError (no_attribute (type_name body) "get"))
      end.

(** The two [except] clauses; [body] is [None] when [request.json()] raised. *)
Definition a2a_except (body : pyval) (e : exn) : M reply :=
  if is_ValueError e then
    id ← id_of body;
    mret (JSONResponse 400 id (RpcError (-32602) "Invalid params" (Some (exn_str e))))
  else
    (* Handle JSON parsing errors *)
    let error_msg := exn_str e in
    if contains "Expecting value" error_msg || contains "JSON" error_msg then
      mret (JSONResponse 400 PNone
              (RpcError (-32700) "Parse error: Invalid JSON in request body"
                 (Some "Please provide a valid JSON-RPC 2.0 request")))
    else
      id ← id_of body;
      mret (JSONResponse 500 id (RpcError (-32603) "Internal error" (Some error_msg))).

(** Main A2A endpoint; [request_json] is the outcome of [request.json()].  An
    exception that leaves the endpoint is answered by the framework. *)
Definition a2a_endpoint (request_json : exn + pyval) : M reply :=
  match request_json with
  | inl e => a2a_except PNone e
  | inr body => try_except (a2a_try body) (a2a_except body)
  end.

End Service.

(* ================================================================= *)
(** ** The specification's words for the interpreter *)




(* ================================================================= *)
(** ** Vocabulary of the statements *)

Definition pypi_url (package_name : string) : string :=
  "https://pypi.org/pypi/" +:+ package_name +:+ "/json".
Definition npm_url (package_name : string) : string :=
  "https://registry.npmjs.org/" +:+ package_name.
Definition requested (url : string) (st : state) : state :=
  State (requests st ++ [url]) (uuids_drawn st).
Definition is_success (r : response) : bool :=
  (200 <=? status_code r) && (status_code r <=? 299).

(** A computation that leaves the state as it found it. *)
Definition Pure {A} (c : M A) : Prop := ∀ st, ∃ x, c st = (x, st).

(** The only exception the reading of a payload raises. *)
Definition NoGet (e : exn) : Prop :=
  ∃ v, e = AttributeError (no_attribute (type_name v) "get").

(** What the specification promises of a client's result [r], given the
    outcome of the exchange with the registry. *)
Definition FetchOutcome (source package_name : string)
    (outcome : string + response) (r : gmap string pyval) : Prop :=
  (* network failure *)
  (∀ descr, outcome = inl descr → r = not_found source package_name descr) ∧
  (* HTTP 404 *)
  (∀ resp, outcome = inr resp → status_code resp = 404 →
     r = not_found source package_name "Package not found") ∧
  (* any other status that is not 2xx *)
  (∀ resp, outcome = inr resp → is_success resp = false → status_code resp ≠ 404 →
     r = not_found source package_name ("HTTP " +:+ pretty (status_code resp))) ∧
  (* a 2xx response whose body is not JSON *)
  (∀ resp descr, outcome = inr resp → is_success resp = true →
     json resp = inl descr → r = not_found source package_name descr) ∧
  (* a 2xx response with a JSON body: a success, or the description of the
     failure to read it *)
  (∀ resp data, outcome = inr resp → is_success resp = true →
     json resp = inr data →
     r !! "found" = Some (PBool true) ∨
     ∃ v, r = not_found source package_name (no_attribute (type_name v) "get")) ∧
  (* in every case: a success, or a record with found=false and an error *)
  (r !! "found" = Some (PBool true) ∨
   ∃ descr, r = not_found source package_name descr).

(** The client reported [found=true]. *)
Definition Found (r : gmap string pyval) : Prop := r !! "found" = Some (PBool true).

(** The text the assembler takes from the input: the text of the first part
    of kind ["text"] of the last message, trimmed. *)
Definition first_text_part (m : A2AMessage.t) : option MessagePart.t :=
  head (filter (λ p, MessagePart.kind p = "text") (A2AMessage.parts m)).

Definition query_of (messages : list A2AMessage.t) : option string :=
  m ← last messages; p ← first_text_part m; t ← MessagePart.text p; Some (strip t).

(** The identifier [x or str(uuid4())] yields at the n-th draw, and whether
    it takes a draw. *)
Definition supplied (x : option string) : bool :=
  match x with Some s => negb (String.eqb s "") | None => false end.
Definition id_or (uuid4 : nat → string) (x : option string) (n : nat) : string :=
  match x with
  | Some s => if String.eqb s "" then uuid4 n else s
  | None => uuid4 n
  end.
Definition draws (x : option string) : nat := if supplied x then 0%nat else 1%nat.

(** The reply message and the artifact of a task result. *)
Definition reply_message (task_id response_text : string) : A2AMessage.t :=
  A2AMessage.mk "agent" [MessagePart.mk "text" (Some response_text) None] (Some task_id).
Definition package_info_artifact (package_info : gmap string pyval) : Artifact.t :=
  Artifact.mk "package_info" [MessagePart.mk "data" None (Some (PDict package_info))].

(** A successful registry response: status 2xx and a JSON object as body. *)
Definition Successful (outcome : string + response) (data : gmap string pyval) : Prop :=
  ∃ resp, outcome = inr resp ∧ is_success resp = true ∧ json resp = inr (PDict data).

(** Field [field] of the result is entry [key] of the payload, and the
    default when the payload has no such entry. *)
Definition Defaulted (payload : gmap string pyval) (key : string)
    (r : gmap string pyval) (field dflt : string) : Prop :=
  (payload !! key = None → r !! field = Some (PStr dflt)) ∧
  (∀ v, payload !! key = Some v → r !! field = Some v).


Section FormatSpec.
Variable py_repr : pyval → string.

(** One line of the block: label, value, line feed. *)
Definition line (label : string) (v : pyval) : string :=
  label +:+ ": " +:+ py_str py_repr v +:+ nl.

(** A line that is there only if the value is not empty. *)
Definition optional_line (label : string) (v : pyval) : string :=
  if truthy v then line label v else "".


Definition header (name source : pyval) : string :=
  "📦 " +:+ py_str py_repr name +:+ " (from " +:+ py_str py_repr source +:+ ")"
    +:+ nl +:+ nl.

Definition install_hint (tool : string) (name : pyval) : string :=
  nl +:+ "Install: `" +:+ tool +:+ " install " +:+ py_str py_repr name +:+ "`".

(** The part of the block that depends on the source. *)
Definition source_tail (info : gmap string pyval) (name source : pyval) : string :=
  if eq_str source "PyPI" then
    line "Requires Python" (dict_get info "requires_python" (PStr "Any"))
      +:+ install_hint "pip" name
  else if eq_str source "npm" then
    optional_line "Repository" (dict_get info "repository" (PStr ""))
      +:+ install_hint "npm" name
  else "".

(** The block for a package that was found. *)
Definition found_block (info : gmap string pyval) (package_name : string) : string :=
  let name := dict_get info "name" (PStr package_name) in
  let source := dict_get info "source" (PStr "Unknown") in
  header name source
    +:+ line "Version" (dict_get info "version" (PStr "Unknown"))
    +:+ line "Description" (dict_get info "description" (PStr "No description"))
    +:+ line "Author" (dict_get info "author" (PStr "Unknown"))
    +:+ line "License" (dict_get info "license" (PStr "Unknown"))
    +:+ optional_line "Homepage" (dict_get info "homepage" (PStr ""))
    +:+ source_tail info name source.

(** What [get_npm_package] makes of a field that is an object or a string:
    the entry of the object, or the value turned into a string. *)
Definition string_or_entry (payload : gmap string pyval) (key entry dflt : string)
  : pyval :=
  match payload !! key with
  | Some (PDict o) => dict_get o entry (PStr dflt)
  | Some v => PStr (py_str py_repr v)
  | None => PStr dflt
  end.

End FormatSpec.


(** ** Sample worlds and inputs *)

(** A registry that knows [fastapi] on PyPI and nothing else. *)
Definition sample_get (url : string) : string + response :=
  if String.eqb url (pypi_url "fastapi") then
    inr (Response 200
           (inr (PDict {[ "info" :=
                   PDict (list_to_map [("name", PStr "fastapi");
                                       ("version", PStr "0.115.0")]) ]})))
  else inr (Response 404 (inl "Expecting value: line 1 column 1 (char 0)")).


Definition sample_repr (v : pyval) : string := "...".
Definition sample_uuid4 (n : nat) : string := "uuid-" +:+ pretty n.

Definition user_text (t : string) : A2AMessage.t :=
  A2AMessage.mk "user" [MessagePart.mk "text" (Some t) None] None.

Definition sample_state : state := State [] 0.

(* ================================================================= *)
(** ** Vocabulary of the further properties *)

(** What every record of a client holds, for the client named [source] asked
    for [package_name]. *)
Definition ClientRecord (source package_name : string) (r : gmap string pyval) : Prop :=
  r !! "source" = Some (PStr source) ∧
  is_Some (r !! "name") ∧
  ((r !! "found" = Some (PBool true) ∧ r !! "error" = None) ∨
   (r !! "found" = Some (PBool false) ∧ r !! "name" = Some (PStr package_name) ∧
    ∃ descr, r !! "error" = Some (PStr descr))).

(** A 2xx response whose JSON body is [data]. *)
Definition Decoded (outcome : string + response) (data : pyval) : Prop :=
  ∃ resp, outcome = inr resp ∧ is_success resp = true ∧ json resp = inr data.

(** The record of [get_package_smart] when both registries failed. *)
Definition nowhere_found (package_name : string) : gmap string pyval :=
  list_to_map [("found", PBool false); ("name", PStr package_name);
               ("error", PStr "Package not found in PyPI or npm")].

(** The requests [st'] has made beyond those of [st] are the one or two
    that resolving [name] takes. *)
Definition Resolved (name : string) (st st' : state) : Prop :=
  requests st' = requests st ++ [pypi_url name] ∨
  requests st' = requests st ++ [npm_url name] ∨
  requests st' = requests st ++ [pypi_url name; npm_url name].

(** An identifier the caller did not supply: absent, or the empty string. *)
Definition Missing (x : option string) : Prop := x = None ∨ x = Some "".

(** The arguments the endpoint passes to [process_package_query] for a
    validated request, when its method is known and its parameters are those
    of the method. *)
Definition call_of (rpc_request : JSONRPCRequest.t)
  : option (list A2AMessage.t * option string * option string * option pyval) :=
  match JSONRPCRequest.params rpc_request with
  | MessageParams message configuration =>
      if String.eqb (JSONRPCRequest.method rpc_request) "message/send"
      then Some ([message], None, None, configuration) else None
  | ExecuteParams messages contextId taskId =>
      if String.eqb (JSONRPCRequest.method rpc_request) "message/send" then None
      else if String.eqb (JSONRPCRequest.method rpc_request) "execute"
      then Some (messages, contextId, taskId, None) else None
  end.

(** The pairs of HTTP status and JSON-RPC error code the endpoint uses. *)
Definition status_and_code : list (Z * Z) :=
  [(400, -32600); (400, -32601); (400, -32602); (400, -32700); (500, -32603)].

(** The id an error reply echoes: [body.get("id") if body else None]. *)
Definition echoed_id (body : pyval) : pyval :=
  match body with
  | PDict d => dict_get d "id" PNone
  | _ => PNone
  end.

(** The envelope checks of the endpoint pass for the object [d]. *)
Definition Envelope (d : gmap string pyval) : Prop :=
  d !! "jsonrpc" = Some (PStr "2.0") ∧ is_Some (d !! "id").

(** A registry that answers every request with an empty JSON array. *)
Definition array_get (url : string) : string + response :=
  inr (Response 200 (inr (PList []))).

(** A validator for the sample requests: the method and the text of the one
    message are read from the members ["method"] and ["query"]. *)
Definition sample_new (d : gmap string pyval) : exn + JSONRPCRequest.t :=
  match d !! "method", d !! "query" with
  | Some (PStr method), Some (PStr query) =>
      inr (JSONRPCRequest.mk (dict_get d "id" PNone) method
             (MessageParams (user_text query) None))
  | _, _ => inl (ValueError "validation error for JSONRPCRequest")
  end.

Definition sample_body (method query : string) : gmap string pyval :=
  list_to_map [("jsonrpc", PStr "2.0"); ("id", PStr "1");
               ("method", PStr method); ("query", PStr query)].

Definition sample_endpoint : (exn + pyval) → M reply :=
  a2a_endpoint sample_get sample_repr sample_uuid4 sample_new.

(* ################################################################# *)
(** * Proofs *)

(* ================================================================= *)
(** ** Facts about strings *)

Section StringFacts.
Implicit Types k s t a b : string.

Lemma str_app_cons c a b : String c a +:+ b = String c (a +:+ b).
Proof. reflexivity. Qed.

Lemma str_app_empty_l s : "" +:+ s = s.
Proof. reflexivity. Qed.

Lemma str_app_empty_r s : s +:+ "" = s.
Proof. induction s as [|c s IH]; [done | by rewrite str_app_cons, IH]. Qed.

Lemma str_app_assoc a b c : (a +:+ b) +:+ c = a +:+ b +:+ c.
Proof. induction a as [|x a IH]; [done | by rewrite !str_app_cons, IH]. Qed.

Lemma str_length_app a b : String.length (a +:+ b) = (String.length a + String.length b)%nat.
Proof. induction a as [|x a IH]; [done | by rewrite str_app_cons; simpl; rewrite IH]. Qed.


Lemma starts_with_inv k s : starts_with k s = true → ∃ t, s = k +:+ t.
Proof.
  revert s. induction k as [|c k IH]; intros s H.
  - by exists s.
  - destruct s as [|d s]; simpl in H; [done |].
    apply andb_true_iff in H as [Hc Hk].
    apply Ascii.eqb_eq in Hc as ->.
    destruct (IH _ Hk) as [t ->]. by exists t.
Qed.


Lemma starts_with_length k s :
  starts_with k s = true → (String.length k ≤ String.length s)%nat.
Proof.
  intros H. destruct (starts_with_inv _ _ H) as [t ->].
  rewrite str_length_app. lia.
Qed.
















End StringFacts.

(* ================================================================= *)
(** ** Trimming *)

Section StripFacts.
Implicit Types k s t a b l r : string.














End StripFacts.

(* ================================================================= *)
(** ** The interpreter meets its specification *)






(* ================================================================= *)
(** ** Facts about the monad *)

Section MonadFacts.
Context {A B : Type}.

Lemma Pure_ret (a : A) : Pure (mret a : M A).
Proof. intros st. by eexists. Qed.

Lemma Pure_raise (e : exn) : Pure (@raise A e).
Proof. intros st. by eexists. Qed.

Lemma Pure_bind (c : M A) (f : A → M B) :
  Pure c → (∀ a, Pure (f a)) → Pure (c ≫= f).
Proof.
  intros Hc Hf st. destruct (Hc st) as [x Hx].
  unfold mbind, M_bind. rewrite Hx. destruct x as [e|a]; [by eexists | apply Hf].
Qed.

Lemma Pure_if (b : bool) (c1 c2 : M A) : Pure c1 → Pure c2 → Pure (if b then c1 else c2).
Proof. by destruct b. Qed.

Lemma bind_inr (c : M A) (f : A → M B) st b st' :
  (c ≫= f) st = (inr b, st') →
  ∃ a st1, c st = (inr a, st1) ∧ f a st1 = (inr b, st').
Proof.
  unfold mbind, M_bind. destruct (c st) as [[e|a] st1]; [done |]. eauto.
Qed.

Lemma ret_inr (a b : A) st st' :
  (mret a : M A) st = (inr b, st') → a = b ∧ st = st'.
Proof. by intros [= -> ->]. Qed.

End MonadFacts.

Lemma Pure_py_get v key dflt : Pure (py_get v key dflt).
Proof. destruct v; (apply Pure_ret || apply Pure_raise). Qed.

Ltac pure_tac :=
  repeat first
    [ apply Pure_py_get | apply Pure_ret | apply Pure_raise
    | apply Pure_if | apply Pure_bind; [| intros ?] ].

Section ClientFacts.
Variable http_get : string → string + response.
Variable py_repr : pyval → string.

Lemma on_failure_run source package_name e st :
  ∃ descr, on_failure source package_name e st
           = (inr (not_found source package_name descr), st).
Proof.
  destruct e; simpl; try by eexists.
  destruct (_ =? 404); by eexists.
Qed.

(** The skeleton shared by the two clients. *)
Lemma fetch_run source package_name url (k : pyval → M (gmap string pyval)) st :
  (∀ data, Pure (k data)) →
  try_except
    (response ← client_get http_get url;
     _ ← raise_for_status response;
     data ← response_json response;
     k data)
    (on_failure source package_name) st
  = match http_get url with
    | inl descr => (inr (not_found source package_name descr), requested url st)
    | inr resp =>
        if is_success resp then
          match json resp with
          | inl descr => (inr (not_found source package_name descr), requested url st)
          | inr data =>
              match k data (requested url st) with
              | (inl e, _) => on_failure source package_name e (requested url st)
              | (inr r, _) => (inr r, requested url st)
              end
          end
        else if status_code resp =? 404 then
          (inr (not_found source package_name "Package not found"), requested url st)
        else
          (inr (not_found source package_name ("HTTP " +:+ pretty (status_code resp))),
           requested url st)
    end.
Proof.
  intros Hk. unfold try_except, mbind, M_bind, client_get. fold (requested url st).
  destruct (http_get url) as [descr|resp]; [done |].
  unfold raise_for_status, response_json, is_success.
  destruct (_ && _); [| simpl; by destruct (_ =? 404)].
  simpl. destruct (json resp) as [descr|data]; [done |]. simpl.
  destruct (Hk data (requested url st)) as [x ->]. by destruct x.
Qed.

End ClientFacts.

(* ================================================================= *)
(** ** The clients *)

Lemma bind_inl {A B} (c : M A) (f : A → M B) st e st' :
  (c ≫= f) st = (inl e, st') →
  c st = (inl e, st') ∨ ∃ a st1, c st = (inr a, st1) ∧ f a st1 = (inl e, st').
Proof.
  unfold mbind, M_bind. destruct (c st) as [[e1|a] st1]; intros H.
  - simplify_eq. by left.
  - right. eauto.
Qed.

Lemma py_get_inl v key dflt st e st' :
  py_get v key dflt st = (inl e, st') → NoGet e.
Proof.
  intros H. exists v.
  destruct v; simpl in H; unfold raise, mret, M_ret in H; by simplify_eq.
Qed.

Lemma py_get_inr v key dflt st x st' :
  py_get v key dflt st = (inr x, st') →
  ∃ d, v = PDict d ∧ x = dict_get d key dflt.
Proof.
  intros H.
  destruct v; simpl in H; unfold raise, mret, M_ret in H; simplify_eq.
  by eexists.
Qed.

(** Take a failed chain of binds apart; every link is a [py_get]. *)
Ltac fails_no_get H :=
  cbv beta in H;
  lazymatch type of H with
  | (_ ≫= _) _ = _ =>
      apply bind_inl in H as [H | (? & ? & _ & H)]; fails_no_get H
  | (if ?b then _ else _) _ = _ => destruct b; fails_no_get H
  | py_get _ _ _ _ = _ => exact (py_get_inl _ _ _ _ _ _ H)
  | mret _ _ = _ => discriminate H
  end.

Section ClientOutcome.
Variable http_get : string → string + response.
Variable py_repr : pyval → string.

Lemma not_found_found source package_name descr :
  not_found source package_name descr !! "found" = Some (PBool false).
Proof. reflexivity. Qed.

Lemma not_found_error source package_name descr :
  not_found source package_name descr !! "error" = Some (PStr descr).
Proof. reflexivity. Qed.

Lemma success_not_404 resp : is_success resp = true → status_code resp ≠ 404.
Proof. unfold is_success. intros H E. by rewrite E in H. Qed.

Ltac outcome_tac :=
  eexists; split; [done |];
  repeat split; intros; simplify_eq;
  try done; try congruence; try (right; by eexists); try (by left);
  try (exfalso; eapply success_not_404; eassumption).

Lemma fetch_outcome source package_name url (k : pyval → M (gmap string pyval)) st :
  (∀ data, Pure (k data)) →
  (∀ data st r st', k data st = (inr r, st') → r !! "found" = Some (PBool true)) →
  (∀ data st e st', k data st = (inl e, st') → NoGet e) →
  ∃ r,
    try_except
      (response ← client_get http_get url;
       _ ← raise_for_status response;
       data ← response_json response;
       k data)
      (on_failure source package_name) st = (inr r, requested url st) ∧
    FetchOutcome source package_name (http_get url) r.
Proof.
  intros Hpure Hok Herr. rewrite fetch_run by done. unfold FetchOutcome.
  destruct (http_get url) as [descr|resp] eqn:Hout; [outcome_tac |].
  destruct (is_success resp) eqn:Hs.
  - destruct (json resp) as [descr|data] eqn:Hj; [outcome_tac |].
    destruct (k data (requested url st)) as [[e|r] st1] eqn:Hk.
    + destruct (Herr _ _ _ _ Hk) as [v ->]. simpl. outcome_tac.
    + pose proof (Hok _ _ _ _ Hk) as Hf. outcome_tac.
  - destruct (status_code resp =? 404) eqn:H404.
    + apply Z.eqb_eq in H404. outcome_tac.
    + apply Z.eqb_neq in H404. outcome_tac.
Qed.

Lemma pypi_client_outcome package_name st :
  ∃ r, get_pypi_package http_get package_name st
         = (inr r, requested (pypi_url package_name) st) ∧
       FetchOutcome "PyPI" package_name (http_get (pypi_url package_name)) r.
Proof.
  apply fetch_outcome.
  - intros data. pure_tac.
  - intros data s r s' H.
    repeat (apply bind_inr in H as (? & ? & _ & H)).
    apply ret_inr in H as [<- _]. reflexivity.
  - intros data s e s' H. fails_no_get H.
Qed.

Lemma npm_client_outcome package_name st :
  ∃ r, get_npm_package http_get py_repr package_name st
         = (inr r, requested (npm_url package_name) st) ∧
       FetchOutcome "npm" package_name (http_get (npm_url package_name)) r.
Proof.
  apply fetch_outcome.
  - intros data. pure_tac.
  - intros data s r s' H.
    repeat (apply bind_inr in H as (? & ? & _ & H)).
    apply ret_inr in H as [<- _]. reflexivity.
  - intros data s e s' H. fails_no_get H.
Qed.

End ClientOutcome.

(* ================================================================= *)
(** ** Resolution and the assembler, step by step *)

Section Resolution.
Variable http_get : string → string + response.
Variable py_repr : pyval → string.

Lemma FetchOutcome_found source package_name outcome r :
  FetchOutcome source package_name outcome r →
  truthy (dict_get r "found" PNone) = true ↔ Found r.
Proof.
  intros (_ & _ & _ & _ & _ & [H | [descr ->]]); unfold Found, dict_get.
  - by rewrite H.
  - rewrite not_found_found. simpl. split; [done | by intros [=]].
Qed.

Lemma urls_differ package_name package_name' :
  pypi_url package_name ≠ npm_url package_name'.
Proof. discriminate. Qed.

Lemma get_package_smart_run package_name st :
  let st1 := requested (pypi_url package_name) st in
  let st2 := requested (npm_url package_name) st1 in
  ∃ pypi_result npm_result,
    get_pypi_package http_get package_name st = (inr pypi_result, st1) ∧
    get_npm_package http_get py_repr package_name st1 = (inr npm_result, st2) ∧
    (Found pypi_result →
       get_package_smart http_get py_repr package_name st = (inr pypi_result, st1)) ∧
    (¬ Found pypi_result → Found npm_result →
       get_package_smart http_get py_repr package_name st = (inr npm_result, st2)) ∧
    (¬ Found pypi_result → ¬ Found npm_result →
       get_package_smart http_get py_repr package_name st
       = (inr (list_to_map
                 [("found", PBool false); ("name", PStr package_name);
                  ("error", PStr "Package not found in PyPI or npm")]), st2)).
Proof.
  intros st1 st2.
  destruct (pypi_client_outcome http_get package_name st) as (p & Hp & Op).
  destruct (npm_client_outcome http_get py_repr package_name st1) as (n & Hn & On).
  exists p, n. split; [done |]. split; [done |].
  apply FetchOutcome_found in Op, On.
  unfold get_package_smart, mbind, M_bind. rewrite Hp.
  destruct (truthy (dict_get p "found" PNone)) eqn:Tp.
  - assert (Found p) as Fp by (by apply Op). repeat split; done.
  - assert (¬ Found p) as Np by (by intros H%Op).
    fold st1. rewrite Hn.
    destruct (truthy (dict_get n "found" PNone)) eqn:Tn.
    + assert (Found n) as Fn by (by apply On). repeat split; done.
    + assert (¬ Found n) as Nn by (by intros H%On).
      repeat split; done.
Qed.




Variable uuid4 : nat → string.

Lemma or_uuid4_run x st :
  or_uuid4 uuid4 x st
  = (inr (id_or uuid4 x (uuids_drawn st)),
     State (requests st) (uuids_drawn st + draws x)).
Proof.
  destruct st as [rq n]. unfold or_uuid4, id_or, draws, supplied, str_uuid4.
  destruct x as [s|]; [destruct (String.eqb s "") |]; simpl;
    unfold mret, M_ret; repeat f_equal; lia.
Qed.

Lemma query_text_of_run m st :
  query_text_of (A2AMessage.parts m) st =
    match first_text_part m with
    | None => (inr "", st)
    | Some p =>
        match MessagePart.text p with
        | Some t => (inr (strip t), st)
        | None => (inl (AttributeError (no_attribute "NoneType" "strip")), st)
        end
    end.
Proof.
  unfold first_text_part. induction (A2AMessage.parts m) as [|p ps IH]; [done |].
  simpl. rewrite filter_cons. destruct (String.eqb_spec (MessagePart.kind p) "text").
  - rewrite decide_True by done. simpl. by destruct (MessagePart.text p).
  - by rewrite decide_False.
Qed.

(** The whole of [process_package_query], step by step. *)
Lemma process_package_query_run messages context_id task_id config st :
  let cid := id_or uuid4 context_id (uuids_drawn st) in
  let n1 := (uuids_drawn st + draws context_id)%nat in
  let tid := id_or uuid4 task_id n1 in
  let st2 := State (requests st) (n1 + draws task_id) in
  process_package_query http_get py_repr uuid4 messages context_id task_id config st =
    match last messages with
    | None => (inl (ValueError "No message provided"), st2)
    | Some m =>
        match first_text_part m with
        | None => (inl (ValueError "No text content in message"), st2)
        | Some p =>
            match MessagePart.text p with
            | None => (inl (AttributeError (no_attribute "NoneType" "strip")), st2)
            | Some t =>
                if String.eqb (strip t) "" then
                  (inl (ValueError "No text content in message"), st2)
                else
                  let name := (parse_query (strip t)).1 in
                  match fetch_package_info http_get py_repr name
                          (parse_query (strip t)).2 st2 with
                  | (inl e, st3) => (inl e, st3)
                  | (inr info, st3) =>
                      let reply := reply_message tid (format_response py_repr info name) in
                      (inr (TaskResult.mk tid cid (TaskStatus.mk "completed" reply)
                              [package_info_artifact info] (messages ++ [reply])), st3)
                  end
            end
        end
    end.
Proof.
  intros cid n1 tid st2.
  unfold process_package_query, mbind at 1 2, M_bind.
  rewrite or_uuid4_run. simpl. rewrite or_uuid4_run. simpl.
  fold cid n1 tid st2.
  destruct (last messages) as [m|]; [| done].
  unfold mbind, M_bind. rewrite query_text_of_run.
  destruct (first_text_part m) as [p|]; [| done].
  destruct (MessagePart.text p) as [t|]; [| done].
  destruct (String.eqb (strip t) ""); [done |].
  destruct (parse_query (strip t)) as [name ty]. simpl.
  by destruct (fetch_package_info _ _ _ _ _) as [[e|info] st3].
Qed.

End Resolution.

(* ================================================================= *)
(** ** Normalisation of the fields *)

Section Normalisation.
Variable http_get : string → string + response.
Variable py_repr : pyval → string.

Lemma Defaulted_get payload key dflt (r : gmap string pyval) field :
  r !! field = Some (dict_get payload key (PStr dflt)) →
  Defaulted payload key r field dflt.
Proof.
  unfold Defaulted, dict_get. intros ->. split; [by intros -> | by intros v ->].
Qed.

Lemma pypi_success package_name st data info :
  Successful (http_get (pypi_url package_name)) data →
  dict_get data "info" (PDict ∅) = PDict info →
  get_pypi_package http_get package_name st =
    (inr (list_to_map
            [("found", PBool true); ("source", PStr "PyPI");
             ("name", dict_get info "name" (PStr package_name));
             ("version", dict_get info "version" (PStr "Unknown"));
             ("description", dict_get info "summary" (PStr "No description"));
             ("author", dict_get info "author" (PStr "Unknown"));
             ("license", dict_get info "license" (PStr "Unknown"));
             ("homepage",
              if truthy (dict_get info "home_page" PNone)
              then dict_get info "home_page" PNone
              else dict_get info "project_url" (PStr ""));
             ("requires_python", dict_get info "requires_python" (PStr "Any"))]),
     requested (pypi_url package_name) st).
Proof.
  intros (resp & Hout & Hs & Hj) Hinfo.
  unfold get_pypi_package. rewrite fetch_run by (intros; pure_tac).
  fold (pypi_url package_name). rewrite Hout, Hs, Hj.
  unfold mbind, M_bind. simpl. rewrite Hinfo. simpl.
  by destruct (truthy _).
Qed.

Lemma npm_success package_name st data tags :
  Successful (http_get (npm_url package_name)) data →
  dict_get data "dist-tags" (PDict ∅) = PDict tags →
  get_npm_package http_get py_repr package_name st =
    (inr (list_to_map
            [("found", PBool true); ("source", PStr "npm");
             ("name", dict_get data "name" (PStr package_name));
             ("version", dict_get tags "latest" (PStr "Unknown"));
             ("description", dict_get data "description" (PStr "No description"));
             ("author", string_or_entry py_repr data "author" "name" "Unknown");
             ("license", dict_get data "license" (PStr "Unknown"));
             ("homepage", dict_get data "homepage" (PStr ""));
             ("repository", string_or_entry py_repr data "repository" "url" "")]),
     requested (npm_url package_name) st).
Proof.
  intros (resp & Hout & Hs & Hj) Htags.
  unfold get_npm_package. rewrite fetch_run by (intros; pure_tac).
  fold (npm_url package_name). rewrite Hout, Hs, Hj.
  unfold mbind, M_bind. simpl. rewrite Htags. simpl.
  unfold string_or_entry, dict_get.
  destruct (data !! "author") as [[]|]; destruct (data !! "repository") as [[]|];
    reflexivity.
Qed.


End Normalisation.

(* ================================================================= *)
(** ** The assembler *)

Section Assembler.
Variable http_get : string → string + response.
Variable py_repr : pyval → string.
Variable uuid4 : nat → string.


Lemma query_of_Some messages q :
  query_of messages = Some q ↔
  ∃ m p t, last messages = Some m ∧ first_text_part m = Some p ∧
           MessagePart.text p = Some t ∧ q = strip t.
Proof.
  unfold query_of. split.
  - destruct (last messages) as [m|]; [| done]. simpl.
    destruct (first_text_part m) as [p|] eqn:Hp; [| done]. simpl.
    destruct (MessagePart.text p) as [t|] eqn:Ht; [| done]. simpl.
    intros [= <-]. by exists m, p, t.
  - intros (m & p & t & -> & Hp & Ht & ->). simpl. rewrite Hp. simpl. by rewrite Ht.
Qed.

Lemma process_package_query_inv messages context_id task_id config st result st' :
  process_package_query http_get py_repr uuid4 messages context_id task_id config st
    = (inr result, st') →
  ∃ q info st2 cid tid,
    query_of messages = Some q ∧ q ≠ "" ∧
    requests st2 = requests st ∧
    fetch_package_info http_get py_repr (parse_query q).1 (parse_query q).2 st2
      = (inr info, st') ∧
    result =
      let reply := reply_message tid (format_response py_repr info (parse_query q).1) in
      TaskResult.mk tid cid (TaskStatus.mk "completed" reply)
        [package_info_artifact info] (messages ++ [reply]).
Proof.
  rewrite process_package_query_run. cbv zeta.
  destruct (last messages) as [m|] eqn:Hm; [| done].
  destruct (first_text_part m) as [p|] eqn:Hp; [| done].
  destruct (MessagePart.text p) as [t|] eqn:Ht; [| done].
  destruct (String.eqb_spec (strip t) "") as [|Hq]; [done |].
  destruct (fetch_package_info _ _ _ _ _) as [[e|info] st3] eqn:Hf; [done |].
  intros [= <- <-]. eexists (strip t), info, _, _, _.
  split; [apply query_of_Some; by eauto 10 |].
  split; [done |]. split; [| split; [exact Hf | reflexivity]]. done.
Qed.



End Assembler.

(* ================================================================= *)
(** ** The formatter and the endpoint *)

Section Formatter.
Variable py_repr : pyval → string.


Lemma format_response_found info package_name :
  truthy (dict_get info "found" PNone) = true →
  format_response py_repr info package_name = found_block py_repr info package_name.
Proof.
  intros H. unfold format_response, found_block, source_tail, optional_line.
  rewrite H. cbv zeta. simpl negb. cbv iota.
  destruct (truthy (dict_get info "homepage" _));
    destruct (eq_str _ "PyPI"); try destruct (eq_str _ "npm");
    try destruct (truthy (dict_get info "repository" _));
    unfold header, line, install_hint;
    rewrite ?str_app_assoc, ?str_app_empty_r, ?str_app_empty_l; reflexivity.
Qed.


End Formatter.

Section Endpoint.
Variable http_get : string → string + response.
Variable py_repr : pyval → string.
Variable uuid4 : nat → string.
Variable JSONRPCRequest_new : gmap string pyval → exn + JSONRPCRequest.t.

Local Abbreviation endpoint :=
  (a2a_endpoint http_get py_repr uuid4 JSONRPCRequest_new).

(** An envelope that is a JSON object without ["jsonrpc": "2.0"] or without
    an id is answered with 400 and -32600, and nothing is requested. *)
Lemma invalid_envelope (d : gmap string pyval) st :
  d !! "jsonrpc" ≠ Some (PStr "2.0") ∨ d !! "id" = None →
  ∃ id msg,
    endpoint (inr (PDict d)) st = (inr (JSONResponse 400 id (RpcError (-32600) msg None)), st).
Proof.
  intros H. unfold a2a_endpoint, try_except, a2a_try.
  destruct (truthy (PDict d)); simpl; [| by eauto].
  unfold mbind, M_bind. simpl.
  destruct (eq_str (dict_get d "jsonrpc" PNone) "2.0") eqn:Hj; simpl; [| by eauto].
  destruct H as [H | H].
  - exfalso. apply H. unfold dict_get, eq_str in Hj.
    destruct (d !! "jsonrpc") as [[]|]; try done. simpl in Hj.
    by apply String.eqb_eq in Hj as ->.
  - rewrite H. simpl. by eauto.
Qed.

(** An envelope that passes validation with an unknown method is answered
    with 400 and -32601, and nothing is requested. *)
Lemma unknown_method (d : gmap string pyval) st rpc_request :
  d !! "jsonrpc" = Some (PStr "2.0") → is_Some (d !! "id") →
  JSONRPCRequest_new d = inr rpc_request →
  JSONRPCRequest.method rpc_request ≠ "message/send" →
  JSONRPCRequest.method rpc_request ≠ "execute" →
  endpoint (inr (PDict d)) st
  = (inr (JSONResponse 400 (JSONRPCRequest.id rpc_request)
            (RpcError (-32601)
               ("Method not found: " +:+ JSONRPCRequest.method rpc_request) None)), st).
Proof.
  intros Hj Hid Hnew Hm1 Hm2. unfold a2a_endpoint, try_except, a2a_try.
  assert (truthy (PDict d) = true) as ->.
  { simpl. rewrite bool_decide_eq_false_2; [done |]. intros ->. by rewrite lookup_empty in Hj. }
  simpl. unfold mbind, M_bind. simpl. unfold dict_get. rewrite Hj. simpl.
  rewrite bool_decide_eq_true_2 by done. simpl. rewrite Hnew. simpl.
  apply String.eqb_neq in Hm1, Hm2. by rewrite Hm1, Hm2.
Qed.

End Endpoint.

(* ================================================================= *)
(** ** Claims *)

Section Claims.
Variable http_get : string → string + response.
Variable py_repr : pyval → string.
Variable uuid4 : nat → string.
Variable JSONRPCRequest_new : gmap string pyval → exn + JSONRPCRequest.t.

(** claim C1: with no hint the assembler calls [get_package_smart], which
    asks PyPI first and returns its result when that reports found=true, with
    npm never requested; otherwise it asks npm next and returns its result
    when that reports found=true; otherwise it returns the record with
    found=false, the name and the one fixed error text, which carries neither
    client's error. *)
Theorem get_package_smart_fallback package_name st :
  let st1 := requested (pypi_url package_name) st in
  let st2 := requested (npm_url package_name) st1 in
  fetch_package_info http_get py_repr package_name None st
    = get_package_smart http_get py_repr package_name st ∧
  ∃ pypi_result npm_result,
    get_pypi_package http_get package_name st = (inr pypi_result, st1) ∧
    get_npm_package http_get py_repr package_name st1 = (inr npm_result, st2) ∧
    (Found pypi_result →
       get_package_smart http_get py_repr package_name st = (inr pypi_result, st1)) ∧
    (¬ Found pypi_result → Found npm_result →
       get_package_smart http_get py_repr package_name st = (inr npm_result, st2)) ∧
    (¬ Found pypi_result → ¬ Found npm_result →
       get_package_smart http_get py_repr package_name st
       = (inr (list_to_map
                 [("found", PBool false); ("name", PStr package_name);
                  ("error", PStr "Package not found in PyPI or npm")]), st2)).
Proof. split; [reflexivity | apply get_package_smart_run]. Qed.





(** claim C6, at the input where the code departs from it: a request body
    that is the JSON array [[1]] has no jsonrpc member, yet the endpoint
    returns no reply with status 400 and code -32600; [body.get] raises
    [AttributeError] in the [try] and once more in the handler, and the
    exception leaves the endpoint. *)
Theorem array_body_escapes st :
  a2a_endpoint http_get py_repr uuid4 JSONRPCRequest_new (inr (PList [PInt 1])) st
    = (inl (AttributeError "'list' object has no attribute 'get'"), st) ∧
  ∀ reply st',
    a2a_endpoint http_get py_repr uuid4 JSONRPCRequest_new (inr (PList [PInt 1])) st
      ≠ (inr reply, st').
Proof. split; [reflexivity | done]. Qed.


(** claim C8: in every task result returned, the history is the input
    messages followed by one reply, so its length is the number of input
    messages plus one, and the artifacts are the single package_info
    artifact. *)
Theorem history_and_artifacts messages context_id task_id config st result st' :
  process_package_query http_get py_repr uuid4 messages context_id task_id config st
    = (inr result, st') →
  (∃ reply, TaskResult.history result = messages ++ [reply]) ∧
  length (TaskResult.history result) = (length messages + 1)%nat ∧
  (∃ info, TaskResult.artifacts result = [package_info_artifact info]) ∧
  length (TaskResult.artifacts result) = 1%nat.
Proof.
  intros (q & info & st2 & cid & tid & _ & _ & _ & _ & ->)%process_package_query_inv.
  simpl. split; [by eexists |]. split; [by rewrite length_app |].
  split; [by eexists | done].
Qed.



End Claims.

(* ================================================================= *)
(** ** The claims at sample inputs *)

Example parse_query_latest :
  parse_query "Latest version of express" = ("express", None).
Proof. reflexivity. Qed.

Example replace_rejoins : replace "chcheck eck x" "check " "" = "check x".
Proof. reflexivity. Qed.

Example replace_overlap : replace "pipip" "pip" "" = "ip".
Proof. reflexivity. Qed.

Example replace_empty_pattern : replace "abc" "" "-" = "-a-b-c-".
Proof. reflexivity. Qed.

Example sample_found :
  (get_package_smart sample_get sample_repr "fastapi" sample_state).2
  = State [pypi_url "fastapi"] 0.
Proof. reflexivity. Qed.

Example sample_not_found :
  get_package_smart sample_get sample_repr "nonexistentpackage12345xyz" sample_state
  = (inr (list_to_map
            [("found", PBool false); ("name", PStr "nonexistentpackage12345xyz");
             ("error", PStr "Package not found in PyPI or npm")]),
     State [pypi_url "nonexistentpackage12345xyz";
            npm_url "nonexistentpackage12345xyz"] 0).
Proof. reflexivity. Qed.





Lemma history_and_artifacts_witness :
  ∃ result st',
    process_package_query sample_get sample_repr sample_uuid4
      [user_text "Check fastapi"] None None None sample_state = (inr result, st') ∧
    length (TaskResult.history result) = 2%nat ∧
    length (TaskResult.artifacts result) = 1%nat.
Proof.
  eexists _, _. split; [reflexivity |].
  split; eapply (history_and_artifacts sample_get sample_repr sample_uuid4
                   [user_text "Check fastapi"] None None None sample_state);
    reflexivity.
Defined.



(* ################################################################# *)
(** * Further properties of the code *)

Section QueryFacts.
Implicit Types k s t q : string.





















End QueryFacts.


Section ClientRecords.
Variable http_get : string → string + response.
Variable py_repr : pyval → string.

Lemma fetch_invariant source package_name url (k : pyval → M (gmap string pyval)) st
    (P : gmap string pyval → Prop) :
  (∀ data, Pure (k data)) →
  (∀ data st r st', k data st = (inr r, st') → P r) →
  (∀ descr, P (not_found source package_name descr)) →
  ∃ r,
    try_except
      (response ← client_get http_get url;
       _ ← raise_for_status response;
       data ← response_json response;
       k data)
      (on_failure source package_name) st = (inr r, requested url st) ∧
    P r.
Proof.
  intros Hpure Hok Hnf. rewrite fetch_run by done.
  destruct (http_get url) as [descr|resp]; [by eauto |].
  destruct (is_success resp).
  - destruct (json resp) as [descr|data]; [by eauto |].
    destruct (k data (requested url st)) as [[e|r] st1] eqn:Hk; [| by eauto].
    destruct (on_failure_run source package_name e (requested url st)) as [descr ->].
    by eauto.
  - destruct (status_code resp =? 404); by eauto.
Qed.

Lemma not_found_ClientRecord source package_name descr :
  ClientRecord source package_name (not_found source package_name descr).
Proof.
  split; [done |]. split; [by eexists |]. right. split; [done |]. split; [done |].
  by eexists.
Qed.

Lemma pypi_ClientRecord package_name st :
  ∃ r, get_pypi_package http_get package_name st
         = (inr r, requested (pypi_url package_name) st) ∧
       ClientRecord "PyPI" package_name r.
Proof.
  apply fetch_invariant.
  - intros data. pure_tac.
  - intros data s r s' H.
    repeat (apply bind_inr in H as (? & ? & _ & H)).
    apply ret_inr in H as [<- _].
    split; [done |]. split; [by eexists |]. by left.
  - apply not_found_ClientRecord.
Qed.

Lemma npm_ClientRecord package_name st :
  ∃ r, get_npm_package http_get py_repr package_name st
         = (inr r, requested (npm_url package_name) st) ∧
       ClientRecord "npm" package_name r.
Proof.
  apply fetch_invariant.
  - intros data. pure_tac.
  - intros data s r s' H.
    repeat (apply bind_inr in H as (? & ? & _ & H)).
    apply ret_inr in H as [<- _].
    split; [done |]. split; [by eexists |]. by left.
  - apply not_found_ClientRecord.
Qed.

(** extra X4: every record a client returns names its registry under
    source and has a name; it either has found=true and no error, or
    found=false, the requested name and an error text. *)
Theorem client_records_well_formed package_name st :
  (∃ r, get_pypi_package http_get package_name st
          = (inr r, requested (pypi_url package_name) st) ∧
        ClientRecord "PyPI" package_name r) ∧
  (∃ r, get_npm_package http_get py_repr package_name st
          = (inr r, requested (npm_url package_name) st) ∧
        ClientRecord "npm" package_name r).
Proof. split; [apply pypi_ClientRecord | apply npm_ClientRecord]. Qed.

(** extra X5: on a successful response the name falls back to the
    requested name (both clients) and requires_python to "Any" (PyPI); the
    PyPI homepage is home_page when that is truthy, and otherwise, also when
    home_page is null or empty, project_url or the empty string. *)
Theorem success_name_and_homepage package_name st data :
  (∀ info,
     Successful (http_get (pypi_url package_name)) data →
     dict_get data "info" (PDict ∅) = PDict info →
     ∃ r, get_pypi_package http_get package_name st
            = (inr r, requested (pypi_url package_name) st) ∧
          Defaulted info "name" r "name" package_name ∧
          Defaulted info "requires_python" r "requires_python" "Any" ∧
          (∀ v, info !! "home_page" = Some v → truthy v = true →
                r !! "homepage" = Some v) ∧
          (∀ v, info !! "home_page" = Some v → truthy v = false →
                Defaulted info "project_url" r "homepage" "")) ∧
  (∀ tags,
     Successful (http_get (npm_url package_name)) data →
     dict_get data "dist-tags" (PDict ∅) = PDict tags →
     ∃ r, get_npm_package http_get py_repr package_name st
            = (inr r, requested (npm_url package_name) st) ∧
          Defaulted data "name" r "name" package_name).
Proof.
  split.
  - intros info Hok Hinfo. eexists.
    split; [exact (pypi_success http_get package_name st data info Hok Hinfo) |].
    split; [by apply Defaulted_get |]. split; [by apply Defaulted_get |].
    split; intros v Hv Ht.
    + assert (dict_get info "home_page" PNone = v) as Hg
        by (unfold dict_get; by rewrite Hv).
      change (Some (if truthy (dict_get info "home_page" PNone)
                    then dict_get info "home_page" PNone
                    else dict_get info "project_url" (PStr "")) = Some v).
      by rewrite Hg, Ht.
    + assert (dict_get info "home_page" PNone = v) as Hg
        by (unfold dict_get; by rewrite Hv).
      apply Defaulted_get.
      change (Some (if truthy (dict_get info "home_page" PNone)
                    then dict_get info "home_page" PNone
                    else dict_get info "project_url" (PStr ""))
              = Some (dict_get info "project_url" (PStr ""))).
      by rewrite Hg, Ht.
  - intros tags Hok Htags. eexists.
    split; [exact (npm_success http_get py_repr package_name st data tags Hok Htags) |].
    by apply Defaulted_get.
Qed.

Lemma fetch_decoded source package_name url (k : pyval → M (gmap string pyval)) st data :
  (∀ data, Pure (k data)) → Decoded (http_get url) data →
  try_except
    (response ← client_get http_get url;
     _ ← raise_for_status response;
     data ← response_json response;
     k data)
    (on_failure source package_name) st
  = match k data (requested url st) with
    | (inl e, _) => on_failure source package_name e (requested url st)
    | (inr r, _) => (inr r, requested url st)
    end.
Proof.
  intros Hk (resp & Hout & Hs & Hj). rewrite fetch_run by done.
  by rewrite Hout, Hs, Hj.
Qed.

(** extra X6: a 2xx response whose JSON body is not an object, or whose
    "info" (PyPI) or "dist-tags" (npm) member is not an object, gives
    found=false with the text of the [AttributeError] as error. *)
Theorem malformed_payload_not_found package_name st data :
  let shape_error v := no_attribute (type_name v) "get" in
  (Decoded (http_get (pypi_url package_name)) data → is_dict data = false →
     get_pypi_package http_get package_name st
     = (inr (not_found "PyPI" package_name (shape_error data)),
        requested (pypi_url package_name) st)) ∧
  (Decoded (http_get (npm_url package_name)) data → is_dict data = false →
     get_npm_package http_get py_repr package_name st
     = (inr (not_found "npm" package_name (shape_error data)),
        requested (npm_url package_name) st)) ∧
  (∀ d v,
     Decoded (http_get (pypi_url package_name)) data → data = PDict d →
     d !! "info" = Some v → is_dict v = false →
     get_pypi_package http_get package_name st
     = (inr (not_found "PyPI" package_name (shape_error v)),
        requested (pypi_url package_name) st)) ∧
  (∀ d v,
     Decoded (http_get (npm_url package_name)) data → data = PDict d →
     d !! "dist-tags" = Some v → is_dict v = false →
     get_npm_package http_get py_repr package_name st
     = (inr (not_found "npm" package_name (shape_error v)),
        requested (npm_url package_name) st)).
Proof.
  cbv zeta. repeat split.
  - intros Hd Hn. unfold get_pypi_package.
    rewrite (fetch_decoded _ _ _ _ _ data) by (done || intros; pure_tac).
    by destruct data.
  - intros Hd Hn. unfold get_npm_package.
    rewrite (fetch_decoded _ _ _ _ _ data) by (done || intros; pure_tac).
    by destruct data.
  - intros d v Hd -> Hv Hn. unfold get_pypi_package.
    rewrite (fetch_decoded _ _ _ _ _ (PDict d)) by (done || intros; pure_tac).
    unfold mbind, M_bind. simpl. unfold dict_get. rewrite Hv. simpl.
    by destruct v.
  - intros d v Hd -> Hv Hn. unfold get_npm_package.
    rewrite (fetch_decoded _ _ _ _ _ (PDict d)) by (done || intros; pure_tac).
    unfold mbind, M_bind. simpl. unfold dict_get. rewrite Hv. simpl.
    by destruct v.
Qed.

End ClientRecords.

Section Composition.
Variable http_get : string → string + response.
Variable py_repr : pyval → string.
Variable uuid4 : nat → string.

Lemma ClientRecord_Found_dec source package_name r :
  ClientRecord source package_name r → Found r ∨ ¬ Found r.
Proof.
  intros (_ & _ & [[H _] | [H _]]); [by left | right].
  unfold Found. by rewrite H.
Qed.

Lemma get_package_smart_cases package_name st :
  let st1 := requested (pypi_url package_name) st in
  let st2 := requested (npm_url package_name) st1 in
  ∃ r st',
    get_package_smart http_get py_repr package_name st = (inr r, st') ∧
    ((Found r ∧ ClientRecord "PyPI" package_name r ∧ st' = st1) ∨
     (Found r ∧ ClientRecord "npm" package_name r ∧ st' = st2) ∨
     (r = nowhere_found package_name ∧ st' = st2)).
Proof.
  intros st1 st2.
  destruct (get_package_smart_run http_get py_repr package_name st)
    as (p & n & Hp & Hn & H1 & H2 & H3).
  destruct (pypi_ClientRecord http_get package_name st) as (p' & Hp' & Cp).
  destruct (npm_ClientRecord http_get py_repr package_name st1) as (n' & Hn' & Cn).
  subst st1 st2. cbv zeta in *.
  assert (p' = p) as -> by congruence. assert (n' = n) as -> by congruence.
  destruct (ClientRecord_Found_dec _ _ _ Cp) as [Fp|Fp].
  { eexists p, _. split; [by apply H1 | by left]. }
  destruct (ClientRecord_Found_dec _ _ _ Cn) as [Fn|Fn].
  { eexists n, _. split; [by apply H2 | right; by left]. }
  eexists (nowhere_found package_name), _. split; [by apply H3 | right; by right].
Qed.

(** extra X7: the result of [get_package_smart] has source PyPI after one
    request, or source npm after two, when it is found; when it is not found
    it has no source, carries the requested name, and two requests were
    made. *)
Theorem get_package_smart_names_source package_name st :
  let st1 := requested (pypi_url package_name) st in
  let st2 := requested (npm_url package_name) st1 in
  ∃ r st',
    get_package_smart http_get py_repr package_name st = (inr r, st') ∧
    ((Found r ∧ r !! "source" = Some (PStr "PyPI") ∧ st' = st1) ∨
     (Found r ∧ r !! "source" = Some (PStr "npm") ∧ st' = st2) ∨
     (¬ Found r ∧ r !! "source" = None ∧
      r !! "name" = Some (PStr package_name) ∧ st' = st2)).
Proof.
  intros st1 st2.
  destruct (get_package_smart_cases package_name st) as (r & st' & Hr & Hc).
  exists r, st'. split; [done |].
  destruct Hc as [(F & (Hs & _) & ->) | [(F & (Hs & _) & ->) | [-> ->]]].
  - by left.
  - right. by left.
  - right. right. done.
Qed.

(** extra X8: for a package [get_package_smart] found nowhere, the
    formatted text is the failure message with the fixed error
    "Package not found in PyPI or npm". *)
Theorem nowhere_found_text package_name requested_name st r st' :
  get_package_smart http_get py_repr package_name st = (inr r, st') →
  ¬ Found r →
  format_response py_repr r requested_name
  = "❌ Could not find package '" +:+ requested_name +:+ "'" +:+ nl +:+ nl
      +:+ "Error: Package not found in PyPI or npm".
Proof.
  intros Hr Hnf.
  destruct (get_package_smart_cases package_name st)
    as (r' & st'' & Hr' & Hcases).
  assert (r' = r) as -> by congruence.
  destruct Hcases as [(F & _) | [(F & _) | [-> _]]]; [done | done |].
  reflexivity.
Qed.

Lemma source_tail_known source package_name (r : gmap string pyval) requested_name :
  ClientRecord source package_name r → Found r →
  format_response py_repr r requested_name
  = header py_repr (dict_get r "name" (PStr requested_name)) (PStr source)
      +:+ line py_repr "Version" (dict_get r "version" (PStr "Unknown"))
      +:+ line py_repr "Description" (dict_get r "description" (PStr "No description"))
      +:+ line py_repr "Author" (dict_get r "author" (PStr "Unknown"))
      +:+ line py_repr "License" (dict_get r "license" (PStr "Unknown"))
      +:+ optional_line py_repr "Homepage" (dict_get r "homepage" (PStr ""))
      +:+ source_tail py_repr r (dict_get r "name" (PStr requested_name)) (PStr source).
Proof.
  intros (Hs & _ & _) F. rewrite format_response_found.
  - assert (dict_get r "source" (PStr "Unknown") = PStr source) as Hsrc
      by (unfold dict_get; by rewrite Hs).
    unfold found_block. cbv zeta. by rewrite Hsrc.
  - unfold dict_get. by rewrite F.
Qed.

(** extra X9: the text formatted for a record that a client returned as
    found ends with the install hint of that client's registry, after the
    Requires Python line for PyPI. *)
Theorem found_text_ends_with_install package_name requested_name st :
  (∀ r st',
     get_pypi_package http_get package_name st = (inr r, st') → Found r →
     ∃ body,
       format_response py_repr r requested_name
       = body +:+ line py_repr "Requires Python"
                    (dict_get r "requires_python" (PStr "Any"))
              +:+ install_hint py_repr "pip" (dict_get r "name" (PStr requested_name))) ∧
  (∀ r st',
     get_npm_package http_get py_repr package_name st = (inr r, st') → Found r →
     ∃ body,
       format_response py_repr r requested_name
       = body +:+ install_hint py_repr "npm" (dict_get r "name" (PStr requested_name))).
Proof.
  split; intros r st' Hr F.
  - destruct (pypi_ClientRecord http_get package_name st) as (r' & Hr' & C).
    assert (r' = r) as -> by congruence.
    rewrite (source_tail_known _ _ _ _ C F). unfold source_tail. simpl.
    eexists. rewrite <- !str_app_assoc. reflexivity.
  - destruct (npm_ClientRecord http_get py_repr package_name st) as (r' & Hr' & C).
    assert (r' = r) as -> by congruence.
    rewrite (source_tail_known _ _ _ _ C F). unfold source_tail. simpl.
    eexists. rewrite <- !str_app_assoc. reflexivity.
Qed.

End Composition.

Section Requests.
Variable http_get : string → string + response.
Variable py_repr : pyval → string.
Variable uuid4 : nat → string.

Lemma fetch_package_info_requests package_name package_type st :
  ∃ info st',
    fetch_package_info http_get py_repr package_name package_type st = (inr info, st') ∧
    uuids_drawn st' = uuids_drawn st ∧ Resolved package_name st st'.
Proof.
  unfold fetch_package_info, Resolved.
  destruct (pypi_client_outcome http_get package_name st) as (p & Hp & _).
  destruct (npm_client_outcome http_get py_repr package_name st) as (n & Hn & _).
  repeat case_bool_decide.
  - eexists _, _. split; [done |]. split; [done | by left].
  - eexists _, _. split; [done |]. split; [done | right; by left].
  - destruct (get_package_smart_cases http_get py_repr package_name st)
      as (r & st' & Hr & [(_ & _ & ->) | [(_ & _ & ->) | [_ ->]]]);
      exists r; eexists; (split; [done |]); (split; [done |]).
    + by left.
    + right. right. simpl. by rewrite <- app_assoc.
    + right. right. simpl. by rewrite <- app_assoc.
Qed.

Lemma id_or_supplied x n s : x = Some s → s ≠ "" → id_or uuid4 x n = s.
Proof. intros -> Hs. simpl. by apply String.eqb_neq in Hs as ->. Qed.

Lemma id_or_missing x n : Missing x → id_or uuid4 x n = uuid4 n.
Proof. by intros [-> | ->]. Qed.

Lemma draws_supplied x s : x = Some s → s ≠ "" → draws x = 0%nat.
Proof. intros -> Hs. unfold draws. simpl. by apply String.eqb_neq in Hs as ->. Qed.

Lemma draws_missing x : Missing x → draws x = 1%nat.
Proof. by intros [-> | ->]. Qed.

(** A finer inversion of a successful run: the identifiers and the state. *)
Lemma process_package_query_inv_ids messages context_id task_id config st result st' :
  process_package_query http_get py_repr uuid4 messages context_id task_id config st
    = (inr result, st') →
  ∃ q,
    query_of messages = Some q ∧ q ≠ "" ∧
    TaskResult.contextId result = id_or uuid4 context_id (uuids_drawn st) ∧
    TaskResult.id result
      = id_or uuid4 task_id (uuids_drawn st + draws context_id) ∧
    uuids_drawn st' = (uuids_drawn st + draws context_id + draws task_id)%nat ∧
    Resolved (parse_query q).1 st st'.
Proof.
  rewrite process_package_query_run. cbv zeta.
  destruct (last messages) as [m|] eqn:Hm; [| done].
  destruct (first_text_part m) as [p|] eqn:Hp; [| done].
  destruct (MessagePart.text p) as [t|] eqn:Ht; [| done].
  destruct (String.eqb_spec (strip t) "") as [|Hq]; [done |].
  destruct (fetch_package_info_requests (parse_query (strip t)).1
              (parse_query (strip t)).2
              (State (requests st)
                 (uuids_drawn st + draws context_id + draws task_id)))
    as (info & st3 & -> & Hu & Hreq).
  intros [= <- <-]. exists (strip t).
  split; [apply query_of_Some; by eauto 10 |]. by repeat split.
Qed.

Lemma process_package_query_raises messages context_id task_id config st e st' :
  process_package_query http_get py_repr uuid4 messages context_id task_id config st
    = (inl e, st') →
  requests st' = requests st ∧
  uuids_drawn st' = (uuids_drawn st + draws context_id + draws task_id)%nat.
Proof.
  rewrite process_package_query_run. cbv zeta.
  destruct (last messages) as [m|]; [| by intros [= _ <-]].
  destruct (first_text_part m) as [p|]; [| by intros [= _ <-]].
  destruct (MessagePart.text p) as [t|]; [| by intros [= _ <-]].
  destruct (String.eqb (strip t) ""); [by intros [= _ <-] |].
  destruct (fetch_package_info_requests (parse_query (strip t)).1
              (parse_query (strip t)).2
              (State (requests st)
                 (uuids_drawn st + draws context_id + draws task_id)))
    as (info & st3 & -> & _). done.
Qed.

(** extra X10: a task result echoes the context id and the task id the
    caller supplied; one that is absent or empty is replaced by a fresh
    uuid, the context id taking the earlier draw when both are missing. *)
Theorem task_identifiers messages context_id task_id config st result st' :
  process_package_query http_get py_repr uuid4 messages context_id task_id config st
    = (inr result, st') →
  (∀ c, context_id = Some c → c ≠ "" → TaskResult.contextId result = c) ∧
  (∀ t, task_id = Some t → t ≠ "" → TaskResult.id result = t) ∧
  (Missing context_id → TaskResult.contextId result = uuid4 (uuids_drawn st)) ∧
  (Missing task_id → ∀ c, context_id = Some c → c ≠ "" →
     TaskResult.id result = uuid4 (uuids_drawn st)) ∧
  (Missing task_id → Missing context_id →
     TaskResult.id result = uuid4 (S (uuids_drawn st))).
Proof.
  intros (q & _ & _ & Hc & Ht & _)%process_package_query_inv_ids.
  rewrite Hc, Ht. repeat split.
  - intros c Hx Hne. by apply id_or_supplied.
  - intros t Hx Hne. by apply id_or_supplied.
  - apply id_or_missing.
  - intros Hm c Hx Hne. rewrite (draws_supplied _ _ Hx Hne), id_or_missing by done.
    f_equal. lia.
  - intros Hm Hm'. rewrite (draws_missing _ Hm'), id_or_missing by done.
    f_equal. lia.
Qed.


(** A successful run, taken apart and put together. *)
Lemma process_package_query_form messages context_id task_id config st result st' :
  process_package_query http_get py_repr uuid4 messages context_id task_id config st
    = (inr result, st') →
  ∃ m p t info,
    last messages = Some m ∧ first_text_part m = Some p ∧
    MessagePart.text p = Some t ∧ strip t ≠ "" ∧
    fetch_package_info http_get py_repr (parse_query (strip t)).1
      (parse_query (strip t)).2
      (State (requests st) (uuids_drawn st + draws context_id + draws task_id))
      = (inr info, st') ∧
    result =
      let tid := id_or uuid4 task_id (uuids_drawn st + draws context_id) in
      let reply :=
        reply_message tid (format_response py_repr info (parse_query (strip t)).1) in
      TaskResult.mk tid (id_or uuid4 context_id (uuids_drawn st))
        (TaskStatus.mk "completed" reply) [package_info_artifact info]
        (messages ++ [reply]).
Proof.
  rewrite process_package_query_run. cbv zeta.
  destruct (last messages) as [m|] eqn:Hm; [| done].
  destruct (first_text_part m) as [p|] eqn:Hp; [| done].
  destruct (MessagePart.text p) as [t|] eqn:Ht; [| done].
  destruct (String.eqb_spec (strip t) "") as [|Hq]; [done |].
  destruct (fetch_package_info _ _ _ _ _) as [[e|info] st3] eqn:Hf; [done |].
  intros [= <- <-]. by exists m, p, t, info.
Qed.

Lemma process_package_query_intro messages context_id task_id config st st' m p t info :
  last messages = Some m → first_text_part m = Some p →
  MessagePart.text p = Some t → strip t ≠ "" →
  fetch_package_info http_get py_repr (parse_query (strip t)).1
    (parse_query (strip t)).2
    (State (requests st) (uuids_drawn st + draws context_id + draws task_id))
    = (inr info, st') →
  process_package_query http_get py_repr uuid4 messages context_id task_id config st
  = (inr (let tid := id_or uuid4 task_id (uuids_drawn st + draws context_id) in
          let reply :=
            reply_message tid
              (format_response py_repr info (parse_query (strip t)).1) in
          TaskResult.mk tid (id_or uuid4 context_id (uuids_drawn st))
            (TaskStatus.mk "completed" reply) [package_info_artifact info]
            (messages ++ [reply])), st').
Proof.
  intros Hm Hp Ht Hq Hf. rewrite process_package_query_run. cbv zeta.
  rewrite Hm, Hp, Ht. apply String.eqb_neq in Hq as ->. by rewrite Hf.
Qed.

(** extra X12: only the last message decides the answer: with earlier
    messages in front, the ids, status and artifacts are those of the run on
    the last message alone, and the earlier messages are only put in front
    of the history. *)
Theorem earlier_messages_only_in_history earlier m context_id task_id config st
    result st' :
  process_package_query http_get py_repr uuid4 (earlier ++ [m])
    context_id task_id config st = (inr result, st') →
  ∃ result1,
    process_package_query http_get py_repr uuid4 [m] context_id task_id config st
      = (inr result1, st') ∧
    TaskResult.id result1 = TaskResult.id result ∧
    TaskResult.contextId result1 = TaskResult.contextId result ∧
    TaskResult.status result1 = TaskResult.status result ∧
    TaskResult.artifacts result1 = TaskResult.artifacts result ∧
    TaskResult.history result = earlier ++ TaskResult.history result1.
Proof.
  intros (m' & p & t & info & Hm & Hp & Ht & Hq & Hf & ->)%process_package_query_form.
  rewrite last_snoc in Hm. injection Hm as <-.
  eexists. split.
  - apply (process_package_query_intro [m] context_id task_id config st st' m p t info);
      done.
  - simpl. repeat split. by rewrite <- app_assoc.
Qed.

End Requests.

Section EndpointFacts.
Variable http_get : string → string + response.
Variable py_repr : pyval → string.
Variable uuid4 : nat → string.
Variable JSONRPCRequest_new : gmap string pyval → exn + JSONRPCRequest.t.

Local Abbreviation endpoint :=
  (a2a_endpoint http_get py_repr uuid4 JSONRPCRequest_new).
Local Abbreviation process :=
  (process_package_query http_get py_repr uuid4).

Lemma id_of_run body st :
  truthy body = false ∨ is_dict body = true →
  id_of body st = (inr (echoed_id body), st).
Proof.
  unfold id_of. intros H.
  destruct (truthy body) eqn:Ht.
  - destruct H as [H | H]; [done |]. by destruct body.
  - destruct body; try done. simpl in Ht.
    apply negb_false_iff in Ht. apply bool_decide_eq_true in Ht as ->. done.
Qed.

Lemma a2a_except_run body e st :
  truthy body = false ∨ is_dict body = true →
  a2a_except body e st =
    (inr (if is_ValueError e then
            JSONResponse 400 (echoed_id body)
              (RpcError (-32602) "Invalid params" (Some (exn_str e)))
          else if contains "Expecting value" (exn_str e) || contains "JSON" (exn_str e)
          then JSONResponse 400 PNone
                 (RpcError (-32700) "Parse error: Invalid JSON in request body"
                    (Some "Please provide a valid JSON-RPC 2.0 request"))
          else JSONResponse 500 (echoed_id body)
                 (RpcError (-32603) "Internal error" (Some (exn_str e)))), st).
Proof.
  intros H. unfold a2a_except, mbind, M_bind.
  destruct (is_ValueError e); [by rewrite id_of_run |].
  destruct (_ || _); [done |]. by rewrite id_of_run.
Qed.

Lemma Envelope_truthy d : Envelope d → truthy (PDict d) = true.
Proof.
  intros [Hj _]. simpl. rewrite bool_decide_eq_false_2; [done |].
  intros ->. by rewrite lookup_empty in Hj.
Qed.

Lemma Envelope_dec d :
  Envelope d ∨ (d !! "jsonrpc" ≠ Some (PStr "2.0") ∨ d !! "id" = None).
Proof.
  unfold Envelope. destruct (d !! "id") as [v|]; [| right; by right].
  destruct (d !! "jsonrpc") as [[| | | |s| |]|]; try (right; left; discriminate).
  destruct (String.eqb_spec s "2.0") as [-> | Hs].
  - left. split; [done | by eexists].
  - right. left. congruence.
Qed.

(** The [try] once the envelope checks have passed. *)
Lemma a2a_try_envelope d st :
  Envelope d →
  a2a_try http_get py_repr uuid4 JSONRPCRequest_new (PDict d) st =
    match JSONRPCRequest_new d with
    | inl e => (inl e, st)
    | inr rpc_request =>
        let method := JSONRPCRequest.method rpc_request in
        match call_of rpc_request with
        | Some (messages, context_id, task_id, config) =>
            match process messages context_id task_id config st with
            | (inl e, st') => (inl e, st')
            | (inr result, st') =>
                (inr (Result (JSONRPCRequest.id rpc_request) result), st')
            end
        | None =>
            if String.eqb method "message/send" then
              (inl (AttributeError (no_attribute "ExecuteParams" "message")), st)
            else if String.eqb method "execute" then
              (inl (AttributeError (no_attribute "MessageParams" "messages")), st)
            else
              (inr (JSONResponse 400 (JSONRPCRequest.id rpc_request)
                      (RpcError (-32601) ("Method not found: " +:+ method) None)), st)
        end
    end.
Proof.
  intros Henv. pose proof (Envelope_truthy d Henv) as Ht. destruct Henv as [Hj Hid].
  unfold a2a_try. rewrite Ht. simpl. unfold mbind, M_bind. simpl.
  unfold dict_get. rewrite Hj. simpl.
  rewrite bool_decide_eq_true_2 by done. simpl.
  destruct (JSONRPCRequest_new d) as [e|rpc]; [done |]. simpl.
  unfold call_of. destruct rpc as [id method params]. simpl.
  destruct (String.eqb method "message/send");
    [| destruct (String.eqb method "execute")]; by destruct params.
Qed.

(** What the [try] does for a body that is an object. *)
Lemma a2a_try_object d st :
  ∃ out st',
    a2a_try http_get py_repr uuid4 JSONRPCRequest_new (PDict d) st = (out, st') ∧
    ((∃ e, out = inl e ∧ requests st' = requests st) ∨
     (∃ id err, out = inr (JSONResponse 400 id err) ∧
                (code err = -32600 ∨ code err = -32601) ∧ st' = st) ∨
     (∃ rpc_request messages context_id task_id config result,
        JSONRPCRequest_new d = inr rpc_request ∧
        call_of rpc_request = Some (messages, context_id, task_id, config) ∧
        process messages context_id task_id config st = (inr result, st') ∧
        out = inr (Result (JSONRPCRequest.id rpc_request) result))).
Proof.
  destruct (Envelope_dec d) as [Henv | Hbad].
  - rewrite a2a_try_envelope by done.
    destruct (JSONRPCRequest_new d) as [e|rpc] eqn:Hnew.
    { eexists _, _. split; [done |]. left. by eauto. }
    cbv zeta. destruct (call_of rpc) as [[[[ms c] t] cfg]|] eqn:Hcall.
    + destruct (process ms c t cfg st) as [[e|result] st'] eqn:Hp.
      * eexists _, _. split; [done |]. left. eexists. split; [done |].
        by apply process_package_query_raises in Hp as [? _].
      * eexists _, _. split; [done |]. right. right. by eauto 10.
    + destruct (String.eqb _ "message/send"); [| destruct (String.eqb _ "execute")];
        eexists _, _; (split; [done |]).
      * left. by eauto.
      * left. by eauto.
      * right. left. eexists _, _. split; [done |]. split; [by right | done].
  - destruct (invalid_envelope http_get py_repr uuid4 JSONRPCRequest_new d st)
      as (id & msg & H).
    { done. }
    unfold a2a_endpoint, try_except in H.
    destruct (a2a_try _ _ _ _ _ _) as [[e|reply] st'] eqn:Ht.
    + exfalso. rewrite a2a_except_run in H by (by right).
      (* the handler keeps the error code of the exception, never -32600 *)
      destruct (is_ValueError e); [done |]. by destruct (_ || _).
    + injection H as -> ->. eexists _, _. split; [done |]. right. left.
      eexists _, _. split; [done |]. split; [by left | done].
Qed.

End EndpointFacts.

Section EndpointTheorems.
Variable http_get : string → string + response.
Variable py_repr : pyval → string.
Variable uuid4 : nat → string.
Variable JSONRPCRequest_new : gmap string pyval → exn + JSONRPCRequest.t.

Local Abbreviation endpoint :=
  (a2a_endpoint http_get py_repr uuid4 JSONRPCRequest_new).
Local Abbreviation process :=
  (process_package_query http_get py_repr uuid4).

Ltac pairs_tac :=
  unfold status_and_code;
  repeat first [ by apply elem_of_cons; left | apply elem_of_cons; right ].

Lemma a2a_except_pairs body e st :
  truthy body = false ∨ is_dict body = true →
  ∃ sc id err,
    a2a_except body e st = (inr (JSONResponse sc id err), st) ∧
    (sc, code err) ∈ status_and_code.
Proof.
  intros H. rewrite a2a_except_run by done. unfold status_and_code.
  destruct (is_ValueError e); [| destruct (_ || _)];
    eexists _, _, _; (split; [done |]); simpl; pairs_tac.
Qed.

Lemma truthy_not_dict_escapes body st :
  truthy body = true → is_dict body = false →
  endpoint (inr body) st
  = (inl (AttributeError (no_attribute (type_name body) "get")), st).
Proof.
  intros Ht Hd. unfold a2a_endpoint, try_except, a2a_try. rewrite Ht. simpl.
  unfold a2a_except, id_of, mbind, M_bind.
  destruct body as [|b| | | | |]; try done; simpl in *; try subst b;
    rewrite ?Ht; done.
Qed.

(** Every way the endpoint can end. *)
Lemma a2a_endpoint_cases request_json st :
  (∃ body, request_json = inr body ∧ truthy body = true ∧ is_dict body = false ∧
     endpoint request_json st
     = (inl (AttributeError (no_attribute (type_name body) "get")), st)) ∨
  (∃ sc id err st',
     endpoint request_json st = (inr (JSONResponse sc id err), st') ∧
     requests st' = requests st ∧ (sc, code err) ∈ status_and_code) ∨
  (∃ d rpc_request messages context_id task_id config result st',
     request_json = inr (PDict d) ∧ JSONRPCRequest_new d = inr rpc_request ∧
     call_of rpc_request = Some (messages, context_id, task_id, config) ∧
     process messages context_id task_id config st = (inr result, st') ∧
     endpoint request_json st
     = (inr (Result (JSONRPCRequest.id rpc_request) result), st')).
Proof.
  destruct request_json as [e|body].
  { right. left. simpl.
    destruct (a2a_except_pairs PNone e st) as (sc & id & err & H & Hp); [by left |].
    by exists sc, id, err, st. }
  destruct (truthy body) eqn:Ht.
  2:{ right. left. unfold a2a_endpoint, try_except, a2a_try. rewrite Ht. simpl.
      eexists _, _, _, _. split; [done |]. split; [done |].
      simpl. pairs_tac. }
  destruct (is_dict body) eqn:Hd.
  2:{ left. exists body. by rewrite truthy_not_dict_escapes. }
  destruct body as [| | | | | |d]; try done.
  unfold a2a_endpoint, try_except.
  destruct (a2a_try_object http_get py_repr uuid4 JSONRPCRequest_new d st)
    as (out & st' & -> & [(e & -> & Hr) | [(id & err & -> & Hc & ->)
         | (rpc & ms & c & t & cfg & result & Hnew & Hcall & Hp & ->)]]).
  - right. left.
    destruct (a2a_except_pairs (PDict d) e st') as (sc & id & err & -> & Hp);
      [by right |].
    by exists sc, id, err, st'.
  - right. left. exists 400, id, err, st. split; [done |]. split; [done |].
    destruct Hc as [-> | ->]; pairs_tac.
  - right. right. by exists d, rpc, ms, c, t, cfg, result, st'.
Qed.


(** extra X14: whenever the endpoint returns an error reply no registry
    was requested; whenever it returns a result the one or two requests of a
    resolution were made. *)
Theorem error_replies_make_no_request request_json st reply st' :
  endpoint request_json st = (inr reply, st') →
  match reply with
  | JSONResponse _ _ _ => requests st' = requests st
  | Result _ _ => ∃ name, Resolved name st st'
  end.
Proof.
  intros H.
  destruct (a2a_endpoint_cases request_json st)
    as [(b & _ & _ & _ & H') | [(sc & id & err & st1 & H' & Hr & _)
        | (d & rpc & ms & c & t & cfg & result & st1 & _ & _ & _ & Hp & H')]].
  - congruence.
  - rewrite H' in H. by injection H as <- <-.
  - rewrite H' in H. injection H as <- <-.
    apply process_package_query_inv_ids in Hp as (q & _ & _ & _ & _ & _ & Hres).
    by eauto.
Qed.

(** extra X15: every error reply pairs its HTTP status with its JSON-RPC
    code as 400 with -32600, -32601, -32602 or -32700, or 500 with -32603. *)
Theorem status_matches_code request_json st sc id err st' :
  endpoint request_json st = (inr (JSONResponse sc id err), st') →
  (sc, code err) ∈ status_and_code.
Proof.
  intros H.
  destruct (a2a_endpoint_cases request_json st)
    as [(b & _ & _ & _ & H') | [(sc' & id' & err' & st1 & H' & _ & Hp)
        | (d & rpc & ms & c & t & cfg & result & st1 & _ & _ & _ & _ & H')]].
  - congruence.
  - rewrite H' in H. by injection H as <- <- <- <-.
  - congruence.
Qed.


(** extra X17: a request that passes validation with a method other than
    "message/send" and "execute" is answered with 400 and -32601, with the
    method in the message and the id of the request echoed. *)
Theorem method_not_found_reply d st rpc_request :
  Envelope d → JSONRPCRequest_new d = inr rpc_request →
  JSONRPCRequest.method rpc_request ≠ "message/send" →
  JSONRPCRequest.method rpc_request ≠ "execute" →
  endpoint (inr (PDict d)) st
  = (inr (JSONResponse 400 (JSONRPCRequest.id rpc_request)
            (RpcError (-32601)
               ("Method not found: " +:+ JSONRPCRequest.method rpc_request) None)), st).
Proof. intros [Hj Hid]. by apply unknown_method. Qed.




(** extra X21: when [request.json()] raises, the reply has a null id; a
    [ValueError] (as [JSONDecodeError] is) gives -32602, and -32700 is given
    only for another exception whose text contains "Expecting value" or
    "JSON", any other giving 500 with -32603. *)
Theorem decode_failure_reply e st :
  ∃ reply,
    endpoint (inl e) st = (inr reply, st) ∧
    (is_ValueError e = true →
       reply = JSONResponse 400 PNone
                 (RpcError (-32602) "Invalid params" (Some (exn_str e)))) ∧
    (is_ValueError e = false →
       (contains "Expecting value" (exn_str e) || contains "JSON" (exn_str e) = true →
          ∃ msg data, reply = JSONResponse 400 PNone (RpcError (-32700) msg data)) ∧
       (contains "Expecting value" (exn_str e) || contains "JSON" (exn_str e) = false →
          reply = JSONResponse 500 PNone
                    (RpcError (-32603) "Internal error" (Some (exn_str e))))).
Proof.
  simpl. rewrite a2a_except_run by (by left). eexists. split; [done |].
  destruct (is_ValueError e); [done |]. split; [done |].
  destruct (_ || _); split; try done. by eauto.
Qed.

(** extra X22: a "message/send" request that succeeds gets two fresh
    uuids, the first as context id and the second as task id, and a history
    of the message and the reply. *)
Theorem message_send_draws_fresh_ids d st rpc_request message configuration id result
    st' :
  Envelope d → JSONRPCRequest_new d = inr rpc_request →
  JSONRPCRequest.method rpc_request = "message/send" →
  JSONRPCRequest.params rpc_request = MessageParams message configuration →
  endpoint (inr (PDict d)) st = (inr (Result id result), st') →
  id = JSONRPCRequest.id rpc_request ∧
  TaskResult.contextId result = uuid4 (uuids_drawn st) ∧
  TaskResult.id result = uuid4 (S (uuids_drawn st)) ∧
  TaskResult.history result = [message; TaskStatus.message (TaskResult.status result)] ∧
  uuids_drawn st' = (uuids_drawn st + 2)%nat.
Proof.
  intros Henv Hnew Hm Hp. unfold a2a_endpoint, try_except.
  rewrite a2a_try_envelope by done. rewrite Hnew. cbv zeta.
  unfold call_of. rewrite Hp, Hm. simpl.
  destruct (process [message] None None configuration st) as [[e|r] st1] eqn:Hrun.
  { rewrite a2a_except_run by (by right).
    destruct (is_ValueError e); [done |]. by destruct (_ || _). }
  intros [= <- <- <-]. split; [done |].
  pose proof Hrun as (q & _ & _ & Hc & Ht & Hu & _)%process_package_query_inv_ids.
  apply process_package_query_form in Hrun
    as (? & ? & ? & ? & _ & _ & _ & _ & _ & Hr).
  rewrite Hc, Ht, Hu. unfold id_or, draws. simpl.
  split; [done |]. split; [f_equal; lia |].
  split; [by rewrite Hr | lia].
Qed.

End EndpointTheorems.

Lemma sample_Envelope method query : Envelope (sample_body method query).
Proof. split; [reflexivity | by eexists]. Qed.

Lemma success_name_and_homepage_witness :
  ∃ r,
    get_pypi_package sample_get "fastapi" sample_state
      = (inr r, requested (pypi_url "fastapi") sample_state) ∧
    r !! "name" = Some (PStr "fastapi") ∧
    r !! "requires_python" = Some (PStr "Any").
Proof.
  destruct (proj1 (success_name_and_homepage sample_get sample_repr "fastapi"
                     sample_state
                     {[ "info" := PDict (list_to_map [("name", PStr "fastapi");
                                                      ("version", PStr "0.115.0")]) ]})
              (list_to_map [("name", PStr "fastapi"); ("version", PStr "0.115.0")])
              ltac:(eexists; repeat split; reflexivity) eq_refl)
    as (r & Hr & Hn & Hp & _).
  exists r. split; [exact Hr |]. split.
  - apply (proj2 Hn). reflexivity.
  - apply (proj1 Hp). reflexivity.
Defined.

Lemma malformed_payload_not_found_witness :
  get_pypi_package array_get "fastapi" sample_state
  = (inr (not_found "PyPI" "fastapi" "'list' object has no attribute 'get'"),
     requested (pypi_url "fastapi") sample_state).
Proof.
  apply (proj1 (malformed_payload_not_found array_get sample_repr "fastapi"
                  sample_state (PList []))).
  - eexists. repeat split; reflexivity.
  - reflexivity.
Defined.

Lemma nowhere_found_text_witness :
  format_response sample_repr (nowhere_found "left-pad") "left-pad"
  = "❌ Could not find package 'left-pad'" +:+ nl +:+ nl
      +:+ "Error: Package not found in PyPI or npm".
Proof.
  apply (nowhere_found_text sample_get sample_repr "left-pad" "left-pad" sample_state
           (nowhere_found "left-pad")
           (requested (npm_url "left-pad") (requested (pypi_url "left-pad") sample_state))).
  - reflexivity.
  - intros H. vm_compute in H. discriminate H.
Defined.

Lemma found_text_ends_with_install_witness :
  ∃ r body,
    get_pypi_package sample_get "fastapi" sample_state
      = (inr r, requested (pypi_url "fastapi") sample_state) ∧
    format_response sample_repr r "fastapi"
    = body +:+ line sample_repr "Requires Python" (PStr "Any")
           +:+ install_hint sample_repr "pip" (PStr "fastapi").
Proof.
  eexists.
  destruct (proj1 (found_text_ends_with_install sample_get sample_repr "fastapi"
                     "fastapi" sample_state) _ _ eq_refl eq_refl) as [body Hb].
  exists body. split; [reflexivity | exact Hb].
Defined.

Lemma task_identifiers_witness :
  ∃ result st',
    process_package_query sample_get sample_repr sample_uuid4
      [user_text "Check fastapi"] (Some "ctx-1") None None sample_state
      = (inr result, st') ∧
    TaskResult.contextId result = "ctx-1" ∧
    TaskResult.id result = sample_uuid4 0.
Proof.
  eexists _, _. split; [reflexivity |].
  destruct (task_identifiers sample_get sample_repr sample_uuid4
              [user_text "Check fastapi"] (Some "ctx-1") None None sample_state
              _ _ eq_refl) as (Hc & _ & _ & Ht & _).
  split.
  - apply (Hc "ctx-1"); [reflexivity | discriminate].
  - apply (Ht (or_introl eq_refl) "ctx-1"); [reflexivity | discriminate].
Defined.


Lemma earlier_messages_only_in_history_witness :
  ∃ result result1 st',
    process_package_query sample_get sample_repr sample_uuid4
      [user_text "hello"; user_text "Check fastapi"] None None None sample_state
      = (inr result, st') ∧
    process_package_query sample_get sample_repr sample_uuid4
      [user_text "Check fastapi"] None None None sample_state = (inr result1, st') ∧
    TaskResult.status result1 = TaskResult.status result.
Proof.
  eexists _.
  destruct (earlier_messages_only_in_history sample_get sample_repr sample_uuid4
              [user_text "hello"] (user_text "Check fastapi") None None None
              sample_state _ _ eq_refl) as (r1 & H1 & _ & _ & Hs & _).
  exists r1. eexists. split; [reflexivity |]. split; [exact H1 | exact Hs].
Defined.

Lemma error_replies_make_no_request_witness :
  requests (sample_endpoint (inr PNone) sample_state).2 = requests sample_state.
Proof.
  apply (error_replies_make_no_request sample_get sample_repr sample_uuid4 sample_new
           (inr PNone) sample_state
           (JSONResponse 400 PNone
              (RpcError (-32600) "Invalid Request: Empty request body" None))
           sample_state).
  reflexivity.
Defined.

Lemma status_matches_code_witness : (400, -32600) ∈ status_and_code.
Proof.
  apply (status_matches_code sample_get sample_repr sample_uuid4 sample_new
           (inr PNone) sample_state 400 PNone
           (RpcError (-32600) "Invalid Request: Empty request body" None)
           sample_state).
  reflexivity.
Defined.


Lemma method_not_found_reply_witness :
  sample_endpoint (inr (PDict (sample_body "tasks/get" "Check fastapi"))) sample_state
  = (inr (JSONResponse 400 (PStr "1")
            (RpcError (-32601) "Method not found: tasks/get" None)), sample_state).
Proof.
  apply (method_not_found_reply sample_get sample_repr sample_uuid4 sample_new
           (sample_body "tasks/get" "Check fastapi") sample_state
           (JSONRPCRequest.mk (PStr "1") "tasks/get"
              (MessageParams (user_text "Check fastapi") None))).
  - apply sample_Envelope.
  - reflexivity.
  - discriminate.
  - discriminate.
Defined.




Lemma message_send_draws_fresh_ids_witness :
  ∃ result st',
    sample_endpoint (inr (PDict (sample_body "message/send" "Check fastapi")))
      sample_state
    = (inr (Result (PStr "1") result), st') ∧
    TaskResult.contextId result = sample_uuid4 0 ∧
    TaskResult.id result = sample_uuid4 1.
Proof.
  eexists _, _. split; [reflexivity |].
  destruct (message_send_draws_fresh_ids sample_get sample_repr sample_uuid4 sample_new
              (sample_body "message/send" "Check fastapi") sample_state
              (JSONRPCRequest.mk (PStr "1") "message/send"
                 (MessageParams (user_text "Check fastapi") None))
              (user_text "Check fastapi") None _ _ _
              (sample_Envelope _ _) eq_refl eq_refl eq_refl eq_refl)
    as (_ & Hc & Ht & _).
  split; [exact Hc | exact Ht].
Defined.
